(** * Alt-text MCP servers: a shallow embedding of [simple_server.py] and
    [server.py] and the properties of their dispatch and tool handlers.

    Python values are modelled by the JSON value type that [json.loads]
    produces; a Python [str] is a [string] of ASCII characters, an [int] is a
    [Z], and a [float] is the rational number its literal or quotient denotes
    (the only float operations of the sources are one true division of a
    length by 50 and one [min] against [1.0]).  A Python [dict] is an
    association list in insertion order.  Code that can raise returns a
    [result]; [try ... except Exception] is [try_except].  Library functions
    that are not part of the repository ([json.dumps], [json.loads],
    [base64.b64decode], [base64.b64encode], the HTTP client, [str] of an
    exception, [repr]) are fields of the record [Env]. *)

From Stdlib Require Import String Ascii List ZArith QArith Qminmax Bool Lia DecimalString.
Import ListNotations.

Local Open Scope string_scope.
Local Open Scope list_scope.

(* ================================================================= *)
(** ** Python values, exceptions and the builtins the servers use *)

Module Py.

(** The exceptions that the modelled code can meet.  All of them are
    subclasses of [Exception]. *)
Inductive exn : Type :=
| AttributeError
| TypeError
| IndexError
| KeyError
| ValueError (msg : string)
| JSONDecodeError
| LibraryError (name : string).

Inductive result (A : Type) : Type :=
| Ok (a : A)
| Raise (e : exn).
Arguments Ok {A} a.
Arguments Raise {A} e.

Definition bind {A B : Type} (c : result A) (k : A -> result B) : result B :=
  match c with
  | Ok a => k a
  | Raise e => Raise e
  end.

(** [try: c except Exception as e: h e] *)
Definition try_except {A : Type} (c : result A) (h : exn -> result A) : result A :=
  match c with
  | Ok a => Ok a
  | Raise e => h e
  end.

(** What [json.loads] builds, and what [json.dumps] accepts. *)
#[warnings="-register-all"]
Inductive json : Type :=
| JNone
| JBool (b : bool)
| JInt (n : Z)
| JFloat (q : Q)
| JStr (s : string)
| JList (l : list json)
| JDict (d : list (string * json)).

Definition dict : Type := list (string * json).

(** Truth value of a Python object: [None], [False], zero, and the empty
    string, list and dict are false. *)
Definition truthy (v : json) : bool :=
  match v with
  | JNone => false
  | JBool b => b
  | JInt n => negb (n =? 0)%Z
  | JFloat q => negb (Qnum q =? 0)%Z
  | JStr s => negb (s =? "")
  | JList l => match l with [] => false | _ => true end
  | JDict d => match d with [] => false | _ => true end
  end.

(** [d[k]] on the association list: the first binding of [k]. *)
Fixpoint dict_get (k : string) (d : dict) : option json :=
  match d with
  | [] => None
  | (k', v) :: rest => if k' =? k then Some v else dict_get k rest
  end.

(** [d[k] = v]: replaces the binding in place, or appends a new one. *)
Fixpoint dict_set (k : string) (v : json) (d : dict) : dict :=
  match d with
  | [] => [(k, v)]
  | (k', v') :: rest =>
      if k' =? k then (k, v) :: rest else (k', v') :: dict_set k v rest
  end.

(** [obj.get(k, default)]: only a dict has the method. *)
Definition py_get (obj : json) (k : string) (default : json) : result json :=
  match obj with
  | JDict d =>
      Ok (match dict_get k d with Some v => v | None => default end)
  | _ => Raise AttributeError
  end.

(** [obj[k]] for a string key. *)
Definition py_getitem (obj : json) (k : string) : result json :=
  match obj with
  | JDict d =>
      match dict_get k d with Some v => Ok v | None => Raise KeyError end
  | _ => Raise TypeError
  end.

(** [obj == "literal"] *)
Definition py_eq_str (obj : json) (lit : string) : bool :=
  match obj with
  | JStr s => s =? lit
  | _ => false
  end.

(** [len(obj)] *)
Definition py_len (obj : json) : result Z :=
  match obj with
  | JStr s => Ok (Z.of_nat (String.length s))
  | JList l => Ok (Z.of_nat (List.length l))
  | JDict d => Ok (Z.of_nat (List.length d))
  | _ => Raise TypeError
  end.

(** [str.lower] on ASCII. *)
Definition lower_char (c : ascii) : ascii :=
  let n := N_of_ascii c in
  if ((65 <=? n) && (n <=? 90))%N then ascii_of_N (n + 32) else c.

Fixpoint lower (s : string) : string :=
  match s with
  | EmptyString => EmptyString
  | String c t => String (lower_char c) (lower t)
  end.

(** [obj.lower()] *)
Definition py_lower (obj : json) : result string :=
  match obj with
  | JStr s => Ok (lower s)
  | _ => Raise AttributeError
  end.

(** [needle in hay] for strings. *)
Fixpoint str_in (needle hay : string) : bool :=
  String.prefix needle hay
  || match hay with
     | EmptyString => false
     | String _ t => str_in needle t
     end.

(** [s.startswith(p)] *)
Definition startswith (s p : string) : bool := String.prefix p s.

(** [s.split(sep)] for a one-character separator. *)
Fixpoint split (sep : ascii) (s : string) : list string :=
  match s with
  | EmptyString => [EmptyString]
  | String c t =>
      if Ascii.eqb c sep then EmptyString :: split sep t
      else match split sep t with
           | [] => [String c EmptyString]
           | piece :: pieces => String c piece :: pieces
           end
  end.

(** [l[i]] on a list *)
Definition index {A : Type} (l : list A) (i : nat) : result A :=
  match nth_error l i with
  | Some x => Ok x
  | None => Raise IndexError
  end.

(** ASCII characters for which [str.isspace] holds. *)
Definition isspace (c : ascii) : bool :=
  let n := N_of_ascii c in
  (((9 <=? n) && (n <=? 13)) || ((28 <=? n) && (n <=? 32)))%N.

Fixpoint lstrip (s : string) : string :=
  match s with
  | EmptyString => EmptyString
  | String c t => if isspace c then lstrip t else s
  end.

Fixpoint rstrip (s : string) : string :=
  match s with
  | EmptyString => EmptyString
  | String c t =>
      match rstrip t with
      | EmptyString => if isspace c then EmptyString else String c EmptyString
      | t' => String c t'
      end
  end.

(** [s.strip()] *)
Definition strip (s : string) : string := rstrip (lstrip s).

(** [obj[:n]]: strings and lists can be sliced. *)
Definition py_slice_to (n : nat) (obj : json) : result json :=
  match obj with
  | JStr s => Ok (JStr (String.substring 0 n s))
  | JList l => Ok (JList (firstn n l))
  | _ => Raise TypeError
  end.

(** ["\n".join(parts)] *)
Definition join_lines (parts : list string) : string :=
  String.concat (String (ascii_of_N 10) EmptyString) parts.

(** [min(a, b)]: the first argument unless the second is strictly smaller. *)
Definition py_min (a b : Q) : Q :=
  if Qle_bool a b then a else b.

(** [n / m] on ints: true division. *)
Definition true_div (n m : Z) : Q := Qdiv (inject_Z n) (inject_Z m).

End Py.

Export Py.

Declare Scope py_scope.
Notation "x <- c ;; k" := (bind c (fun x => k))
  (at level 61, c at next level, right associativity) : py_scope.
Local Open Scope py_scope.

(* ================================================================= *)
(** ** Library functions outside the repository *)

(** What the URL helper observes of an [httpx] response. *)
Record http_response : Type := {
  raise_for_status : result unit;          (* response.raise_for_status() *)
  content_type_header : option string;     (* response.headers, key content-type *)
  content : list Byte.byte                 (* response.content *)
}.

Record Env : Type := {
  json_loads : string -> result json;          (* json.loads(line) *)
  json_dumps : json -> string;                 (* json.dumps(obj) *)
  json_dumps_indent : json -> string;          (* json.dumps(obj, indent=2) *)
  repr : json -> string;                       (* formatting of a non-str value *)
  str_exn : exn -> string;                     (* str(e) *)
  http_get : string -> result http_response;   (* client.get(url, timeout=10.0) *)
  b64decode : string -> result (list Byte.byte);
  b64encode : list Byte.byte -> string
}.

(** [f"{v}"] *)
Definition format (E : Env) (v : json) : string :=
  match v with
  | JStr s => s
  | _ => repr E v
  end.

(* ================================================================= *)
(** ** simple_server.py: the minimal server *)

Module SimpleServer.

Section WithEnv.

Variable E : Env.

(** [self.tools], built once in [__init__]. *)
Definition tools : json :=
  JList
    [ JDict
        [ ("name", JStr "generate_alt_text");
          ("description", JStr "Generate descriptive alt text options for images");
          ("inputSchema",
            JDict
              [ ("type", JStr "object");
                ("properties",
                  JDict
                    [ ("image_data",
                        JDict [ ("type", JStr "string");
                                ("description", JStr "Image URL or base64 data") ]);
                      ("context",
                        JDict [ ("type", JStr "object");
                                ("description", JStr "Page context") ]) ]);
                ("required", JList [ JStr "image_data" ]) ]) ] ].

(** One literal suggestion record: the four fields as the source writes
    them, [length] included. *)
Definition suggestion (type text : string) (length : Z) (confidence : Q) : json :=
  JDict [ ("type", JStr type); ("text", JStr text);
          ("length", JInt length); ("confidence", JFloat confidence) ].

Definition product_suggestions : list json :=
  [ suggestion "brief" "Product image showing key features" 35 (85 # 100);
    suggestion "moderate"
      "Detailed product photo highlighting main functionality and design"
      65 (90 # 100);
    suggestion "detailed"
      "High-quality product photograph showcasing design, features, and build quality in professional lighting setup"
      115 (88 # 100) ].

Definition generic_suggestions : list json :=
  [ suggestion "brief" "Descriptive image relevant to page content" 42 (80 # 100);
    suggestion "moderate"
      "Detailed visual content supporting the main page topic and user context"
      75 (85 # 100);
    suggestion "detailed"
      "Comprehensive visual description including key elements, composition, and contextual relevance to surrounding content"
      125 (82 # 100) ].

Definition accessibility_analysis : json :=
  JDict [ ("is_decorative", JBool false);
          ("contains_text", JBool false);
          ("complexity_level", JStr "moderate");
          ("recommended_approach", JStr "descriptive") ].

(** [SimpleAltTextServer.generate_alt_text] *)
Definition generate_alt_text (arguments : json) : result json :=
  image_data <- py_get arguments "image_data" (JStr "") ;;
  context <- py_get arguments "context" (JDict []) ;;
  page_title <- py_get context "page_title" (JStr "") ;;
  page_topic <- py_get context "page_topic" (JStr "general") ;;
  lowered <- py_lower page_title ;;
  let suggestions :=
    if str_in "product" lowered || py_eq_str page_topic "ecommerce"
    then product_suggestions
    else generic_suggestions in
  Ok (JDict [ ("success", JBool true);
              ("alt_suggestions", JList suggestions);
              ("accessibility_analysis", accessibility_analysis);
              ("context_used", context) ]).

Definition initialize_response (msg_id : json) : json :=
  JDict
    [ ("jsonrpc", JStr "2.0");
      ("id", msg_id);
      ("result",
        JDict
          [ ("protocolVersion", JStr "2024-11-05");
            ("capabilities",
              JDict [ ("tools", JDict [ ("listChanged", JBool false) ]) ]);
            ("serverInfo",
              JDict [ ("name", JStr "alt-text-generator");
                      ("version", JStr "1.0.0") ]) ]) ].

Definition tools_list_response (msg_id : json) : json :=
  JDict [ ("jsonrpc", JStr "2.0");
          ("id", msg_id);
          ("result", JDict [ ("tools", tools) ]) ].

Definition tool_call_response (msg_id payload : json) : json :=
  JDict
    [ ("jsonrpc", JStr "2.0");
      ("id", msg_id);
      ("result",
        JDict
          [ ("content",
              JList [ JDict [ ("type", JStr "text");
                              ("text", JStr (json_dumps_indent E payload)) ] ]) ]) ].

(** The default error response at the end of [handle_message]. *)
Definition method_not_found (msg_id method : json) : json :=
  JDict
    [ ("jsonrpc", JStr "2.0");
      ("id", msg_id);
      ("error",
        JDict [ ("code", JInt (-32601));
                ("message", JStr ("Method not found: " ++ format E method)) ]) ].

(** The [tools/call] branch: [Some response] when it returns, [None] when
    control falls through to the default error response. *)
Definition tools_call (message msg_id : json) : result (option json) :=
  params <- py_get message "params" (JDict []) ;;
  tool_name <- py_get params "name" JNone ;;
  arguments <- py_get params "arguments" (JDict []) ;;
  if py_eq_str tool_name "generate_alt_text" then
    payload <- generate_alt_text arguments ;;
    Ok (Some (tool_call_response msg_id payload))
  else Ok None.

(** [SimpleAltTextServer.handle_message] *)
Definition handle_message (message : json) : result json :=
  method <- py_get message "method" JNone ;;
  msg_id <- py_get message "id" JNone ;;
  if py_eq_str method "initialize" then Ok (initialize_response msg_id)
  else if py_eq_str method "tools/list" then Ok (tools_list_response msg_id)
  else
    returned <-
      (if py_eq_str method "tools/call" then tools_call message msg_id
       else Ok None) ;;
    match returned with
    | Some response => Ok response
    | None => Ok (method_not_found msg_id method)
    end.

(** What one iteration of the read loop leaves behind: a line printed on
    standard output, or a record written by [logger.error]. *)
Inductive event : Type :=
| Printed (line : string)
| Logged (record : string).

(** The body of [while True] in [main] for one line read by [input]. *)
Definition main_step (line : string) : list event :=
  if strip line =? "" then []
  else
    match (message <- json_loads E line ;;
           response <- handle_message message ;;
           Ok (json_dumps E response)) with
    | Ok out => [Printed out]
    | Raise JSONDecodeError =>
        [Logged ("Invalid JSON: " ++ str_exn E JSONDecodeError)]
    | Raise e => [Logged ("Error handling message: " ++ str_exn E e)]
    end.

(** [main] on the lines of standard input; the loop ends when [input]
    raises [EOFError]. *)
Definition main (stdin : list string) : list event :=
  flat_map main_step stdin.

Definition printed (evs : list event) : list string :=
  flat_map (fun ev => match ev with Printed l => [l] | Logged _ => [] end) evs.

End WithEnv.

End SimpleServer.

(* ================================================================= *)
(** ** server.py: the rich server *)

Module Server.

(** [types.TextContent(type=..., text=...)] *)
Record TextContent : Type := {
  tc_type : string;
  tc_text : string
}.

(** [types.Tool(name=..., description=..., inputSchema=...)] *)
Record Tool : Type := {
  tool_name : string;
  tool_description : string;
  tool_inputSchema : json
}.

(** [handle_list_tools] *)
Definition handle_list_tools : list Tool :=
  [ {| tool_name := "generate_alt_text";
       tool_description :=
         "Generate descriptive alt text options for images using Computer Vision";
       tool_inputSchema :=
         JDict
           [ ("type", JStr "object");
             ("properties",
               JDict
                 [ ("image_data",
                     JDict
                       [ ("type", JStr "string");
                         ("description",
                           JStr "Base64 encoded image data or image URL") ]);
                   ("context",
                     JDict
                       [ ("type", JStr "object");
                         ("description", JStr "Page context information");
                         ("properties",
                           JDict
                             [ ("page_title", JDict [ ("type", JStr "string") ]);
                               ("surrounding_text",
                                 JDict [ ("type", JStr "string") ]);
                               ("image_filename",
                                 JDict [ ("type", JStr "string") ]);
                               ("page_topic", JDict [ ("type", JStr "string") ]);
                               ("element_role",
                                 JDict [ ("type", JStr "string") ]) ]) ]) ]);
             ("required", JList [ JStr "image_data" ]) ] |};
    {| tool_name := "analyze_image_context";
       tool_description :=
         "Analyze image for accessibility context and recommendations";
       tool_inputSchema :=
         JDict
           [ ("type", JStr "object");
             ("properties",
               JDict
                 [ ("image_data", JDict [ ("type", JStr "string") ]);
                   ("current_alt",
                     JDict [ ("type", JStr "string");
                             ("description", JStr "Existing alt text if any") ]);
                   ("context", JDict [ ("type", JStr "object") ]) ]);
             ("required", JList [ JStr "image_data" ]) ] |};
    {| tool_name := "validate_alt_text_quality";
       tool_description := "Validate and score existing alt text quality";
       tool_inputSchema :=
         JDict
           [ ("type", JStr "object");
             ("properties",
               JDict
                 [ ("alt_text", JDict [ ("type", JStr "string") ]);
                   ("image_data", JDict [ ("type", JStr "string") ]);
                   ("context", JDict [ ("type", JStr "object") ]) ]);
             ("required", JList [ JStr "alt_text"; JStr "image_data" ]) ] |} ].

Section WithEnv.

Variable E : Env.

(** [self.supported_formats] *)
Definition supported_formats : list string :=
  [ "jpeg"; "jpg"; "png"; "gif"; "webp" ].

(** [5 * 1024 * 1024] *)
Definition size_limit : Z := 5 * 1024 * 1024.

Definition suggestion (type text : string) (length : Z) (confidence : Q) : json :=
  JDict [ ("type", JStr type); ("text", JStr text);
          ("length", JInt length); ("confidence", JFloat confidence) ].

(** [AltTextGenerator._create_error_response] *)
Definition _create_error_response (error_message : string) : json :=
  JDict
    [ ("success", JBool false);
      ("error", JStr error_message);
      ("alt_suggestions",
        JList
          [ suggestion "fallback"
              "Image description unavailable - please add manual alt text"
              58 (0 # 1) ]) ].

(** [response.headers.get('content-type', '')] *)
Definition declared_media_type (response : http_response) : string :=
  match content_type_header response with
  | Some v => v
  | None => ""
  end.

(** [AltTextGenerator._process_image_url] *)
Definition _process_image_url (url : string) : result (option string) :=
  try_except
    (response <- http_get E url ;;
     _ <- raise_for_status response ;;
     let content_type := declared_media_type response in
     if negb (existsb (fun fmt => str_in fmt content_type) supported_formats)
     then Ok None
     else if (size_limit <? Z.of_nat (List.length (content response)))%Z
     then Ok None
     else Ok (Some (b64encode E (content response))))
    (fun _ => Ok None).

(** The head of [_process_base64_image]: a data-URL prefix is removed by
    [base64_data.split(',')[1]]. *)
Definition without_data_url_prefix (base64_data : string) : result string :=
  if startswith base64_data "data:"
  then index (split "," base64_data) 1
  else Ok base64_data.

(** [AltTextGenerator._process_base64_image] *)
Definition _process_base64_image (base64_data : string) : result (option string) :=
  try_except
    (base64_data <- without_data_url_prefix base64_data ;;
     image_bytes <- b64decode E base64_data ;;
     if (size_limit <? Z.of_nat (List.length image_bytes))%Z
     then Ok None
     else Ok (Some base64_data))
    (fun _ => Ok None).

(** One [if context.get(key): prompt_parts.append(f"...")] of
    [_build_context_prompt]; [item] is what the source applies to
    [context[key]] before formatting it. *)
Definition prompt_part (context : json) (key label suffix : string)
    (item : json -> result json) : result (list string) :=
  probe <- py_get context key JNone ;;
  if truthy probe then
    v <- py_getitem context key ;;
    shown <- item v ;;
    Ok [ (label ++ format E shown ++ suffix)%string ]
  else Ok [].

(** [AltTextGenerator._build_context_prompt] *)
Definition _build_context_prompt (context : json) : result string :=
  p1 <- prompt_part context "page_title" "Page title: " "" (fun v => Ok v) ;;
  p2 <- prompt_part context "surrounding_text" "Surrounding text: " "..."
          (py_slice_to 200) ;;
  p3 <- prompt_part context "image_filename" "Image filename: " "" (fun v => Ok v) ;;
  p4 <- prompt_part context "page_topic" "Page topic: " "" (fun v => Ok v) ;;
  let prompt_parts := p1 ++ p2 ++ p3 ++ p4 in
  Ok (match prompt_parts with
      | [] => "No additional context available."
      | _ => join_lines prompt_parts
      end).

(** The literal list built inside [_generate_alt_text_options]. *)
Definition rich_suggestions : list json :=
  [ suggestion "brief" "Descriptive image relevant to page content" 42 (85 # 100);
    suggestion "moderate"
      "Detailed description based on visual analysis and page context"
      68 (90 # 100);
    suggestion "detailed"
      "Comprehensive description including key visual elements, colors, composition, and contextual relevance to surrounding content"
      134 (88 # 100) ].

(** The list of the [except] branch of [_generate_alt_text_options]. *)
Definition options_fallback : list json :=
  [ suggestion "fallback" "Image description unavailable" 32 (5 # 10) ].

(** [AltTextGenerator._generate_alt_text_options]: the prompt is built
    before the [try], the literal list inside it. *)
Definition _generate_alt_text_options {A : Type} (image_data : A)
    (context : json) : result (list json) :=
  context_prompt <- _build_context_prompt context ;;
  try_except (Ok rich_suggestions) (fun _ => Ok options_fallback).

(** [AltTextGenerator._analyze_accessibility_context] *)
Definition _analyze_accessibility_context {A : Type} (image_data : A)
    (context : json) : dict :=
  [ ("is_decorative", JBool false);
    ("contains_text", JBool false);
    ("complexity_level", JStr "moderate");
    ("recommended_approach", JStr "descriptive");
    ("wcag_considerations",
      JList
        [ JStr "Ensure description conveys essential information";
          JStr "Consider if image contains important text that should be transcribed";
          JStr "Evaluate if image is purely decorative" ]) ].

(** The normalisation step at the head of [analyze_image]:
    [image_data.startswith('http')] selects the helper. *)
Definition normalize_image (image_data : json) : result (option string) :=
  match image_data with
  | JStr s =>
      if startswith s "http" then _process_image_url s
      else _process_base64_image s
  | _ => Raise AttributeError
  end.

(** [not image_input] for an [Optional[str]]. *)
Definition falsy_input (image_input : option string) : bool :=
  match image_input with
  | None => true
  | Some s => s =? ""
  end.

(** [AltTextGenerator.analyze_image] *)
Definition analyze_image (image_data context : json) : result json :=
  try_except
    (image_input <- normalize_image image_data ;;
     if falsy_input image_input then
       Ok (_create_error_response "Invalid image format or size")
     else
       alt_suggestions <- _generate_alt_text_options image_input context ;;
       let accessibility_analysis :=
         _analyze_accessibility_context image_input context in
       Ok (JDict [ ("success", JBool true);
                   ("alt_suggestions", JList alt_suggestions);
                   ("accessibility_analysis", JDict accessibility_analysis);
                   ("context_used", context) ]))
    (fun e => Ok (_create_error_response ("Analysis failed: " ++ str_exn E e))).

Definition text_result (payload : json) : list TextContent :=
  [ {| tc_type := "text"; tc_text := json_dumps_indent E payload |} ].

(** The [analyze_image_context] branch of [handle_call_tool], up to the
    payload that is serialised. *)
Definition analyze_image_context (arguments : json) : result json :=
  image_data <- py_get arguments "image_data" (JStr "") ;;
  current_alt <- py_get arguments "current_alt" (JStr "") ;;
  context <- py_get arguments "context" (JDict []) ;;
  let analysis := _analyze_accessibility_context image_data context in
  length <- (if truthy current_alt then py_len current_alt else Ok 0%Z) ;;
  let evaluation :=
    JDict
      [ ("text", current_alt);
        ("length", JInt length);
        ("quality_score", JFloat (if truthy current_alt then 5 # 10 else 0 # 1));
        ("recommendations",
          JList
            [ JStr (if truthy current_alt
                    then "Consider more descriptive language"
                    else "Add descriptive alt text");
              JStr "Ensure essential information is conveyed";
              JStr "Keep under 125 characters when possible" ]) ] in
  Ok (JDict (dict_set "current_alt_evaluation" evaluation analysis)).

(** The [if/elif/elif] of the basic quality checks: what is appended to
    the two empty lists [issues] and [suggestions]. *)
Definition quality_checks (alt_text : json) (length : Z)
    : list string * list string :=
  if negb (truthy alt_text) then
    ([] ++ [ "Missing alt text" ], [] ++ [ "Add descriptive alt text" ])
  else if (length <? 10)%Z then
    ([] ++ [ "Alt text too brief" ], [] ++ [ "Provide more descriptive detail" ])
  else if (125 <? length)%Z then
    ([] ++ [ "Alt text may be too long" ],
     [] ++ [ "Consider condensing to essential information" ])
  else ([], []).

(** The [validate_alt_text_quality] branch of [handle_call_tool], up to the
    payload that is serialised. *)
Definition validate_alt_text_quality (arguments : json) : result json :=
  alt_text <- py_get arguments "alt_text" (JStr "") ;;
  image_data <- py_get arguments "image_data" (JStr "") ;;
  context <- py_get arguments "context" (JDict []) ;;
  length <- py_len alt_text ;;
  let quality_score :=
    if truthy alt_text then py_min 1 (true_div length 50) else 0 # 1 in
  let '(issues, suggestions) := quality_checks alt_text length in
  Ok (JDict [ ("alt_text", alt_text);
              ("length", JInt length);
              ("quality_score", JFloat quality_score);
              ("issues", JList (map JStr issues));
              ("suggestions", JList (map JStr suggestions)) ]).

(** The [generate_alt_text] branch of [handle_call_tool], up to the
    payload that is serialised. *)
Definition generate_alt_text (arguments : json) : result json :=
  image_data <- py_get arguments "image_data" (JStr "") ;;
  context <- py_get arguments "context" (JDict []) ;;
  analyze_image image_data context.

(** [handle_call_tool] *)
Definition handle_call_tool (name : string) (arguments : json)
    : result (list TextContent) :=
  if name =? "generate_alt_text" then
    payload <- generate_alt_text arguments ;;
    Ok (text_result payload)
  else if name =? "analyze_image_context" then
    payload <- analyze_image_context arguments ;;
    Ok (text_result payload)
  else if name =? "validate_alt_text_quality" then
    payload <- validate_alt_text_quality arguments ;;
    Ok (text_result payload)
  else Raise (ValueError ("Unknown tool: " ++ name)).

End WithEnv.

End Server.

(* ================================================================= *)
(** ** Vocabulary of the specification *)

Module Spec.

(** Field [k] of a JSON object. *)
Definition field (k : string) (v : json) : option json :=
  match v with
  | JDict d => dict_get k d
  | _ => None
  end.

Definition has_field (k : string) (v : json) : bool :=
  match field k v with
  | Some _ => true
  | None => false
  end.

(** A response carries [result] or [error], never both. *)
Definition result_xor_error (response : json) : bool :=
  xorb (has_field "result" response) (has_field "error" response).

(** The string a handler reads with [arguments.get(k, "")], when the
    argument is absent or is a string. *)
Definition string_argument (k : string) (arguments : dict) : option string :=
  match dict_get k arguments with
  | None => Some ""
  | Some (JStr s) => Some s
  | Some _ => None
  end.

(** The mapping read with [obj.get(k, {})], when it is absent or a mapping. *)
Definition mapping_argument (k : string) (arguments : dict) : option dict :=
  match dict_get k arguments with
  | None => Some []
  | Some (JDict d) => Some d
  | Some _ => None
  end.

(** [hay] contains [needle] as a substring. *)
Definition contains (needle hay : string) : Prop :=
  exists before after, hay = (before ++ needle ++ after)%string.

(** [hay] contains [needle] up to the case of ASCII letters. *)
Definition contains_ci (needle hay : string) : Prop :=
  exists before mid after,
    hay = (before ++ mid ++ after)%string /\ lower mid = lower needle.

(** The signal on which the minimal server selects the product set. *)
Definition product_signal (context : dict) (page_title : string) : Prop :=
  contains_ci "product" page_title
  \/ dict_get "page_topic" context = Some (JStr "ecommerce").

(** The [type] fields of a list of suggestions, in order. *)
Definition types_of (suggestions : list json) : list (option json) :=
  map (field "type") suggestions.

Definition brief_moderate_detailed : list (option json) :=
  [ Some (JStr "brief"); Some (JStr "moderate"); Some (JStr "detailed") ].

(** A handler outcome that is a payload whose [alt_suggestions] is [set]. *)
Definition returns_suggestions (outcome : result json) (set : list json) : Prop :=
  exists payload,
    outcome = Ok payload /\ field "alt_suggestions" payload = Some (JList set).

(** [length == character_count(text)] for one suggestion record. *)
Definition length_consistent (suggestion : json) : bool :=
  match field "text" suggestion, field "length" suggestion with
  | Some (JStr text), Some (JInt n) => (n =? Z.of_nat (String.length text))%Z
  | _, _ => false
  end.

(** The standardized error envelope: [success] false, an [error] string and
    a single fallback suggestion of confidence 0.0. *)
Definition error_envelope (payload : json) : Prop :=
  field "success" payload = Some (JBool false)
  /\ (exists message, field "error" payload = Some (JStr message))
  /\ exists fallback,
       field "alt_suggestions" payload = Some (JList [ fallback ])
       /\ field "type" fallback = Some (JStr "fallback")
       /\ field "confidence" fallback = Some (JFloat (0 # 1)).

(** The requests on which [handle_message] of the minimal server does not
    raise: outside [tools/call] every object; inside it, [params] must be a
    mapping and, for the one registered tool, [arguments] and its [context]
    mappings and [page_title] a string (each when present). *)
Definition well_typed_call (message : dict) : bool :=
  match dict_get "method" message with
  | Some (JStr method) =>
      if method =? "tools/call" then
        match mapping_argument "params" message with
        | Some params =>
            match dict_get "name" params with
            | Some (JStr name) =>
                if name =? "generate_alt_text" then
                  match mapping_argument "arguments" params with
                  | Some arguments =>
                      match mapping_argument "context" arguments with
                      | Some context =>
                          match string_argument "page_title" context with
                          | Some _ => true
                          | None => false
                          end
                      | None => false
                      end
                  | None => false
                  end
                else true
            | _ => true
            end
        | None => false
        end
      else true
  | _ => true
  end.

(** The [id] a response echoes: the request's, or [None] when it has none. *)
Definition request_id (message : dict) : json :=
  match dict_get "id" message with
  | Some v => v
  | None => JNone
  end.

(** [outcome] is one response that echoes [id] and carries [result] or
    [error] but not both. *)
Definition answered (outcome : result json) (id : json) : Prop :=
  exists response,
    outcome = Ok response
    /\ field "id" response = Some id
    /\ result_xor_error response = true.

(** The read loop prints exactly one line for [line], the serialisation of
    a response whose [id] is [id]. *)
Definition emits_one_response (E : Env) (line : string) (id : json) : Prop :=
  exists response,
    SimpleServer.printed (SimpleServer.main_step E line)
    = [ json_dumps E response ]
    /\ field "id" response = Some id.

(** The [required] list of a tool descriptor's input schema. *)
Definition required_of (tool : json) : option json :=
  match field "inputSchema" tool with
  | Some schema => field "required" schema
  | None => None
  end.

(** An error response with the given code whose message is [message]. *)
Definition error_response (response : json) (code : Z) (message : string) : Prop :=
  exists error,
    field "error" response = Some error
    /\ field "code" error = Some (JInt code)
    /\ field "message" error = Some (JStr message)
    /\ has_field "result" response = false.

(** A [tools/call] of the minimal server's [generate_alt_text] that is
    answered normally: the handler returns a payload with [success] true
    and the response carries it under [result], without [error]. *)
Definition answered_with_success (E : Env) (message arguments : dict) : Prop :=
  exists payload response,
    SimpleServer.generate_alt_text (JDict arguments) = Ok payload
    /\ field "success" payload = Some (JBool true)
    /\ SimpleServer.handle_message E (JDict message) = Ok response
    /\ response
       = SimpleServer.tool_call_response E (request_id message) payload
    /\ has_field "result" response = true
    /\ has_field "error" response = false.

(** The issue and the suggestion that the quality thresholds call for. *)
Definition expected_checks (alt_text : string) : list string * list string :=
  let n := String.length alt_text in
  if (n =? 0)%nat then ([ "Missing alt text" ], [ "Add descriptive alt text" ])
  else if (n <? 10)%nat then
    ([ "Alt text too brief" ], [ "Provide more descriptive detail" ])
  else if (125 <? n)%nat then
    ([ "Alt text may be too long" ],
     [ "Consider condensing to essential information" ])
  else ([], []).

(** The payload of the minimal server's [generate_alt_text] for a mapping
    [context] and a string [page_title], in closed form. *)
Definition payload_for (context : dict) (page_title : string) : json :=
  JDict
    [ ("success", JBool true);
      ("alt_suggestions",
        JList
          (if str_in "product" (lower page_title)
              || py_eq_str
                   (match dict_get "page_topic" context with
                    | Some v => v
                    | None => JStr "general"
                    end) "ecommerce"
           then SimpleServer.product_suggestions
           else SimpleServer.generic_suggestions));
      ("accessibility_analysis", SimpleServer.accessibility_analysis);
      ("context_used", JDict context) ].

(** A line on which the read loop does not [continue]. *)
Definition nonblank (line : string) : bool := negb (strip line =? "").

(** The values on which [len] raises. *)
Definition unsized (v : json) : bool :=
  match v with
  | JNone | JBool _ | JInt _ | JFloat _ => true
  | JStr _ | JList _ | JDict _ => false
  end.

(** The names under which the minimal server lists its tools. *)
Definition listed_names (registry : json) : list json :=
  match registry with
  | JList descriptors =>
      flat_map (fun tool => match field "name" tool with
                            | Some name => [ name ]
                            | None => []
                            end) descriptors
  | _ => []
  end.

(** [s] has no comma. *)
Fixpoint comma_free (s : string) : bool :=
  match s with
  | EmptyString => true
  | String c t => negb (Ascii.eqb c ",") && comma_free t
  end.

(** [s] up to its first comma. *)
Fixpoint before_comma (s : string) : string :=
  match s with
  | EmptyString => EmptyString
  | String c t => if Ascii.eqb c "," then EmptyString else String c (before_comma t)
  end.

(** The lines of the context prompt for four string values, an empty value
    standing for a missing one. *)
Definition expected_prompt_lines (title surrounding filename topic : string)
    : list string :=
  (if title =? "" then [] else [ ("Page title: " ++ title)%string ])
  ++ (if surrounding =? "" then []
      else [ ("Surrounding text: " ++ String.substring 0 200 surrounding
              ++ "...")%string ])
  ++ (if filename =? "" then [] else [ ("Image filename: " ++ filename)%string ])
  ++ (if topic =? "" then [] else [ ("Page topic: " ++ topic)%string ]).

(** The success payload of the rich server's [analyze_image]. *)
Definition rich_success_payload (context : json) : json :=
  JDict
    [ ("success", JBool true);
      ("alt_suggestions", JList Server.rich_suggestions);
      ("accessibility_analysis",
        JDict (Server._analyze_accessibility_context tt context));
      ("context_used", context) ].

(** The score the quality payload carries, when it has one. *)
Definition score_of (payload : json) : option Q :=
  match field "quality_score" payload with
  | Some (JFloat q) => Some q
  | _ => None
  end.


(** An entry that is truthy and can be sliced neither as a string nor as
    a list: what [context['surrounding_text'][:200]] faults on. *)
Definition unsliceable (entry : option json) : bool :=
  match entry with
  | Some (JStr _) | Some (JList _) | None => false
  | Some v => truthy v
  end.

(** The text that follows the context lines, or stands in for them. *)
Definition prompt_of_lines (lines : list string) : string :=
  match lines with
  | [] => "No additional context available."
  | _ => join_lines lines
  end.

(** The conditions under which the rich server analyses an image: the
    normalisation yields a non-empty text and the context prompt is built. *)
Definition analysable (E : Env) (image_data context : json) : Prop :=
  (exists s, Server.normalize_image E image_data = Ok (Some s) /\ s <> "")
  /\ exists prompt, Server._build_context_prompt E context = Ok prompt.

End Spec.

Export Spec.

(* ================================================================= *)
(** ** A concrete environment and concrete requests *)

Module Sample.

Definition dq : string := String (ascii_of_N 34) EmptyString.

(** [s] between double quotes. *)
Definition quoted (s : string) : string := (dq ++ s ++ dq)%string.

Definition show_Z (n : Z) : string :=
  DecimalString.NilZero.string_of_int (Z.to_int n).

(** A compact serialiser standing in for [json.dumps]: exact on values
    without floats and without characters that need an escape; a float is
    shown as its fraction. *)
Fixpoint dumps (v : json) : string :=
  match v with
  | JNone => "null"
  | JBool true => "true"
  | JBool false => "false"
  | JInt n => show_Z n
  | JFloat q => (show_Z (Qnum q) ++ "/" ++ show_Z (Zpos (Qden q)))%string
  | JStr s => quoted s
  | JList l =>
      ("[" ++ String.concat ", " (map dumps l) ++ "]")%string
  | JDict d =>
      ("{" ++ String.concat ", "
                (map (fun kv => (quoted (fst kv) ++ ": " ++ dumps (snd kv))%string) d)
           ++ "}")%string
  end.

(** Arguments of [generate_alt_text] whose context has a [page_title] that
    is JSON null. *)
Definition null_title_arguments : dict :=
  [ ("image_data", JStr "https://example.com/a.jpg");
    ("context", JDict [ ("page_title", JNone) ]) ].

(** A notification (no id) that calls the tool with them, and the line
    that carries it. *)
Definition null_title_notification : dict :=
  [ ("jsonrpc", JStr "2.0");
    ("method", JStr "tools/call");
    ("params",
      JDict [ ("name", JStr "generate_alt_text");
              ("arguments", JDict null_title_arguments) ]) ].

Definition null_title_line : string := dumps (JDict null_title_notification).

(** A notification for an unknown method, and its line. *)
Definition ping_notification : dict :=
  [ ("jsonrpc", JStr "2.0"); ("method", JStr "ping") ].

Definition ping_line : string := dumps (JDict ping_notification).

(** [json.loads] on the two lines above; any other line is refused. *)
Definition loads (line : string) : result json :=
  if line =? null_title_line then Ok (JDict null_title_notification)
  else if line =? ping_line then Ok (JDict ping_notification)
  else Raise JSONDecodeError.

Definition hi_bytes : list Byte.byte := [ Byte.x68; Byte.x69 ].

(** The HTTP client on three URLs: a JPEG, an HTML page, and a host that
    cannot be reached. *)
Definition get (url : string) : result http_response :=
  if url =? "https://example.com/test.jpg" then
    Ok {| raise_for_status := Ok tt;
          content_type_header := Some "image/jpeg";
          content := hi_bytes |}
  else if url =? "https://example.com/page.html" then
    Ok {| raise_for_status := Ok tt;
          content_type_header := Some "text/html";
          content := hi_bytes |}
  else Raise (LibraryError "httpx.ConnectError").

(** Base64 on the one payload used here: the text [aGk=] is the bytes [hi]. *)
Definition decode (s : string) : result (list Byte.byte) :=
  if s =? "aGk=" then Ok hi_bytes else Raise (LibraryError "binascii.Error").

Definition encode (b : list Byte.byte) : string :=
  match b with
  | [ Byte.x68; Byte.x69 ] => "aGk="
  | _ => ""
  end.

Definition exn_name (e : exn) : string :=
  match e with
  | AttributeError => "AttributeError"
  | TypeError => "TypeError"
  | IndexError => "IndexError"
  | KeyError => "KeyError"
  | ValueError msg => msg
  | JSONDecodeError => "JSONDecodeError"
  | LibraryError name => name
  end.

Definition env : Env :=
  {| json_loads := loads;
     json_dumps := dumps;
     json_dumps_indent := dumps;
     repr := dumps;
     str_exn := exn_name;
     http_get := get;
     b64decode := decode;
     b64encode := encode |}.

(** The [tools/call] request of [test_simple_server.py]. *)
Definition test_call_arguments : dict :=
  [ ("image_data", JStr "https://example.com/product.jpg");
    ("context",
      JDict [ ("page_title", JStr "Smartphone Product Page");
              ("page_topic", JStr "ecommerce") ]) ].

Definition test_call_message : dict :=
  [ ("jsonrpc", JStr "2.0");
    ("id", JInt 3);
    ("method", JStr "tools/call");
    ("params",
      JDict [ ("name", JStr "generate_alt_text");
              ("arguments", JDict test_call_arguments) ]) ].

(** The same call as a request with id 1. *)
Definition null_title_message : dict :=
  [ ("jsonrpc", JStr "2.0");
    ("id", JInt 1);
    ("method", JStr "tools/call");
    ("params",
      JDict [ ("name", JStr "generate_alt_text");
              ("arguments", JDict null_title_arguments) ]) ].

(** A call that leaves [image_data] out. *)
Definition no_image_message : dict :=
  [ ("jsonrpc", JStr "2.0");
    ("id", JInt 4);
    ("method", JStr "tools/call");
    ("params",
      JDict [ ("name", JStr "generate_alt_text");
              ("arguments", JDict []) ]) ].

(** A call that leaves [image_data] out and whose context has a
    [page_title] that is JSON null. *)
Definition no_image_null_title_arguments : dict :=
  [ ("context", JDict [ ("page_title", JNone) ]) ].

Definition no_image_null_title_message : dict :=
  [ ("jsonrpc", JStr "2.0");
    ("id", JInt 5);
    ("method", JStr "tools/call");
    ("params",
      JDict [ ("name", JStr "generate_alt_text");
              ("arguments", JDict no_image_null_title_arguments) ]) ].

(** Arguments for the rich server: inline image data and an e-commerce
    context. *)
Definition ecommerce_arguments : dict :=
  [ ("image_data", JStr "aGk=");
    ("context", JDict [ ("page_topic", JStr "ecommerce") ]) ].

(** A call of a tool the minimal server does not have, with arguments
    that are not even a mapping. *)
Definition unknown_tool_message : dict :=
  [ ("jsonrpc", JStr "2.0");
    ("id", JInt 9);
    ("method", JStr "tools/call");
    ("params",
      JDict [ ("name", JStr "describe_image"); ("arguments", JInt 5) ]) ].

Definition bogus_message : dict :=
  [ ("jsonrpc", JStr "2.0"); ("id", JInt 7); ("method", JStr "bogus") ].

End Sample.

(* ================================================================= *)
(** ** Strings: substring test and lower-casing *)

Module StringFacts.

Lemma prefix_app (a b : string) : String.prefix a (a ++ b) = true.
Proof.
  induction a as [| c a IH]; simpl.
  - destruct b; reflexivity.
  - destruct (ascii_dec c c) as [_ | ne]; [exact IH | contradiction].
Qed.

Lemma prefix_split (a s : string) :
  String.prefix a s = true -> exists rest, s = (a ++ rest)%string.
Proof.
  revert s; induction a as [| c a IH]; intros s H.
  - exists s; reflexivity.
  - destruct s as [| c' s]; simpl in H; [discriminate |].
    destruct (ascii_dec c c') as [-> | _]; [| discriminate].
    destruct (IH s H) as [rest ->].
    exists rest; reflexivity.
Qed.

Lemma str_in_prefix (needle hay : string) :
  String.prefix needle hay = true -> str_in needle hay = true.
Proof.
  intros H; destruct hay; cbn [str_in]; rewrite H; reflexivity.
Qed.

Lemma str_in_app (needle before after : string) :
  str_in needle (before ++ needle ++ after) = true.
Proof.
  induction before as [| c before IH].
  - cbn [append]; apply str_in_prefix, prefix_app.
  - cbn [str_in append]; rewrite IH; apply orb_true_r.
Qed.

Lemma str_in_contains (needle hay : string) :
  str_in needle hay = true <-> contains needle hay.
Proof.
  split.
  - induction hay as [| c hay IH]; cbn [str_in]; intros H.
    + rewrite orb_false_r in H.
      destruct (prefix_split _ _ H) as [rest ->].
      exists EmptyString, rest; reflexivity.
    + apply orb_true_iff in H; destruct H as [H | H].
      * destruct (prefix_split _ _ H) as [rest Hrest].
        exists EmptyString, rest; exact Hrest.
      * destruct (IH H) as (before & after & ->).
        exists (String c before), after; reflexivity.
  - intros (before & after & ->); apply str_in_app.
Qed.

Lemma lower_app (a b : string) : lower (a ++ b) = (lower a ++ lower b)%string.
Proof.
  induction a as [| c a IH]; simpl; [reflexivity | now rewrite IH].
Qed.

Lemma lower_app_inv (s a b : string) :
  lower s = (a ++ b)%string ->
  exists a' b', s = (a' ++ b')%string /\ lower a' = a /\ lower b' = b.
Proof.
  revert s; induction a as [| c a IH]; intros s H.
  - exists EmptyString, s; auto.
  - destruct s as [| c' s]; simpl in H; [discriminate |].
    injection H as Hc Hs.
    destruct (IH s Hs) as (a' & b' & -> & Ha & Hb).
    exists (String c' a'), b'; simpl; rewrite Ha, Hc; auto.
Qed.

(** The test of the source, [needle in hay.lower()], is containment up to
    case when the needle is already in lower case. *)
Lemma str_in_lower (needle hay : string) :
  lower needle = needle ->
  str_in needle (lower hay) = true <-> contains_ci needle hay.
Proof.
  intros Hn; rewrite str_in_contains; split.
  - intros (before & after & H).
    destruct (lower_app_inv _ _ _ H) as (b' & rest & -> & Hb & Hrest).
    destruct (lower_app_inv _ _ _ Hrest) as (m' & a' & -> & Hm & Ha).
    exists b', m', a'; split; [reflexivity | congruence].
  - intros (before & mid & after & -> & Hmid).
    exists (lower before), (lower after).
    rewrite !lower_app; congruence.
Qed.

Lemma append_empty_r (s : string) : (s ++ "")%string = s.
Proof.
  induction s as [| c s IH]; cbn [append]; [reflexivity | now rewrite IH].
Qed.

Lemma eqb_empty_length (s : string) :
  (s =? "") = (String.length s =? 0)%nat.
Proof. destruct s; reflexivity. Qed.

Lemma py_min_Qmin (a b : Q) : py_min a b = Qmin a b.
Proof.
  unfold py_min, Qmin, GenericMinMax.gmin, Qle_bool, Qcompare.
  rewrite Z.leb_compare.
  destruct (Qnum a * Zpos (Qden b) ?= Qnum b * Zpos (Qden a))%Z; reflexivity.
Qed.

End StringFacts.

(* ================================================================= *)
(** ** The minimal server: tool handler and dispatch *)

Module SimpleServerFacts.

Import SimpleServer StringFacts.

Lemma mapping_argument_get (k : string) (d m : dict) :
  mapping_argument k d = Some m -> py_get (JDict d) k (JDict []) = Ok (JDict m).
Proof.
  unfold mapping_argument, py_get.
  destruct (dict_get k d) as [[] |]; intros H; inversion H; reflexivity.
Qed.

Lemma mapping_argument_none (k : string) (d : dict) :
  mapping_argument k d = None ->
  exists v, py_get (JDict d) k (JDict []) = Ok v
            /\ forall k' default, py_get v k' default = Raise AttributeError.
Proof.
  unfold mapping_argument, py_get.
  destruct (dict_get k d) as [[] |]; intros H; try discriminate;
    eexists; split; reflexivity.
Qed.

Lemma string_argument_get (k : string) (d : dict) (s : string) :
  string_argument k d = Some s -> py_get (JDict d) k (JStr "") = Ok (JStr s).
Proof.
  unfold string_argument, py_get.
  destruct (dict_get k d) as [[] |]; intros H; inversion H; reflexivity.
Qed.

Lemma string_argument_none (k : string) (d : dict) :
  string_argument k d = None ->
  exists v, py_get (JDict d) k (JStr "") = Ok v
            /\ py_lower v = Raise AttributeError.
Proof.
  unfold string_argument, py_get.
  destruct (dict_get k d) as [[] |]; intros H; try discriminate;
    eexists; split; reflexivity.
Qed.

Lemma generate_alt_text_payload (arguments context : dict) (page_title : string) :
  mapping_argument "context" arguments = Some context ->
  string_argument "page_title" context = Some page_title ->
  generate_alt_text (JDict arguments) = Ok (payload_for context page_title).
Proof.
  intros Hc Ht; unfold generate_alt_text.
  change (py_get (JDict arguments) "image_data" (JStr ""))
    with (Ok (match dict_get "image_data" arguments with
              | Some v => v | None => JStr "" end)).
  cbn [bind].
  rewrite (mapping_argument_get _ _ _ Hc); cbn [bind].
  rewrite (string_argument_get _ _ _ Ht); cbn [bind].
  reflexivity.
Qed.

Lemma topic_test (context : dict) :
  py_eq_str
    (match dict_get "page_topic" context with
     | Some v => v
     | None => JStr "general"
     end) "ecommerce" = true
  <-> dict_get "page_topic" context = Some (JStr "ecommerce").
Proof.
  destruct (dict_get "page_topic" context) as [v |]; cbn.
  - split.
    + destruct v; cbn; try discriminate.
      intros H; apply String.eqb_eq in H; now subst.
    + intros H; inversion H; reflexivity.
  - split; discriminate.
Qed.

(** The branch condition of the source is the signal of the specification. *)
Lemma signal_test (context : dict) (page_title : string) :
  str_in "product" (lower page_title)
  || py_eq_str
       (match dict_get "page_topic" context with
        | Some v => v
        | None => JStr "general"
        end) "ecommerce" = true
  <-> product_signal context page_title.
Proof.
  unfold product_signal.
  rewrite orb_true_iff, topic_test, (str_in_lower "product") by reflexivity.
  reflexivity.
Qed.

(** [handle_message] on an object, with the two reads at its head done. *)
Lemma handle_message_object (E : Env) (message : dict) :
  handle_message E (JDict message) =
  let method :=
    match dict_get "method" message with Some v => v | None => JNone end in
  let msg_id := request_id message in
  if py_eq_str method "initialize" then Ok (initialize_response msg_id)
  else if py_eq_str method "tools/list" then Ok (tools_list_response msg_id)
  else
    returned <-
      (if py_eq_str method "tools/call"
       then tools_call E (JDict message) msg_id
       else Ok None) ;;
    match returned with
    | Some response => Ok response
    | None => Ok (method_not_found E msg_id method)
    end.
Proof. reflexivity. Qed.

(** The [tools/call] branch on a well-typed call: it returns, with the
    tool's response or with nothing (fall through). *)
Lemma tools_call_well_typed (E : Env) (message : dict) (msg_id : json) :
  dict_get "method" message = Some (JStr "tools/call") ->
  well_typed_call message = true ->
  tools_call E (JDict message) msg_id = Ok None
  \/ exists payload,
       tools_call E (JDict message) msg_id
       = Ok (Some (tool_call_response E msg_id payload)).
Proof.
  intros Hm; unfold well_typed_call, tools_call; rewrite Hm; cbn [String.eqb].
  change ("tools/call" =? "tools/call") with true; cbv iota.
  destruct (mapping_argument "params" message) as [params |] eqn:Hp;
    [| discriminate].
  rewrite (mapping_argument_get _ _ _ Hp); cbn [bind py_get].
  destruct (dict_get "name" params) as [name |] eqn:Hn.
  2:{ intros _; left; reflexivity. }
  destruct name as [| | | | name | |]; try (intros _; left; reflexivity).
  cbn [py_eq_str].
  destruct (name =? "generate_alt_text"); [| intros _; left; reflexivity].
  destruct (mapping_argument "arguments" params) as [arguments |] eqn:Ha;
    [| discriminate].
  destruct (mapping_argument "context" arguments) as [context |] eqn:Hc;
    [| discriminate].
  destruct (string_argument "page_title" context) as [title |] eqn:Ht;
    [| discriminate].
  intros _; right; exists (payload_for context title).
  assert (Hargs : (match dict_get "arguments" params with
                   | Some v => v | None => JDict [] end) = JDict arguments).
  { pose proof (mapping_argument_get _ _ _ Ha) as H; cbn in H; congruence. }
  rewrite Hargs, (generate_alt_text_payload _ _ _ Hc Ht); reflexivity.
Qed.

(** The [tools/call] branch on an ill-typed call: [AttributeError]. *)
Lemma tools_call_ill_typed (E : Env) (message : dict) (msg_id : json) :
  dict_get "method" message = Some (JStr "tools/call") ->
  well_typed_call message = false ->
  tools_call E (JDict message) msg_id = Raise AttributeError.
Proof.
  intros Hm; unfold well_typed_call, tools_call; rewrite Hm.
  change ("tools/call" =? "tools/call") with true; cbv iota.
  destruct (mapping_argument "params" message) as [params |] eqn:Hp.
  2:{ intros _.
      destruct (mapping_argument_none _ _ Hp) as (v & -> & Hv); cbn [bind].
      now rewrite Hv. }
  rewrite (mapping_argument_get _ _ _ Hp); cbn [bind py_get].
  destruct (dict_get "name" params) as [name |] eqn:Hn; [| discriminate].
  destruct name as [| | | | name | |]; try discriminate.
  cbn [py_eq_str].
  destruct (name =? "generate_alt_text"); [| discriminate].
  unfold generate_alt_text.
  destruct (mapping_argument "arguments" params) as [arguments |] eqn:Ha.
  2:{ intros _.
      destruct (mapping_argument_none _ _ Ha) as (v & Hget & Hv).
      cbn in Hget; injection Hget as ->.
      now rewrite Hv. }
  assert (Hargs : (match dict_get "arguments" params with
                   | Some v => v | None => JDict [] end) = JDict arguments).
  { pose proof (mapping_argument_get _ _ _ Ha) as H; cbn in H; congruence. }
  rewrite Hargs; cbn [py_get bind].
  destruct (mapping_argument "context" arguments) as [context |] eqn:Hc.
  2:{ intros _.
      destruct (mapping_argument_none _ _ Hc) as (v & Hget & Hv).
      cbn in Hget; injection Hget as ->.
      now rewrite Hv. }
  assert (Hctx : (match dict_get "context" arguments with
                  | Some v => v | None => JDict [] end) = JDict context).
  { pose proof (mapping_argument_get _ _ _ Hc) as H; cbn in H; congruence. }
  rewrite Hctx; cbn [py_get bind].
  destruct (string_argument "page_title" context) as [title |] eqn:Ht;
    [discriminate |].
  intros _.
  destruct (string_argument_none _ _ Ht) as (v & Hget & Hv).
  cbn in Hget; injection Hget as ->.
  now rewrite Hv.
Qed.

Lemma method_of_test (message : dict) (lit : string) :
  py_eq_str
    (match dict_get "method" message with Some v => v | None => JNone end) lit
  = true ->
  dict_get "method" message = Some (JStr lit).
Proof.
  destruct (dict_get "method" message) as [[] |]; cbn; try discriminate.
  intros H; apply String.eqb_eq in H; now subst.
Qed.

Lemma ill_typed_is_tools_call (message : dict) :
  well_typed_call message = false ->
  dict_get "method" message = Some (JStr "tools/call").
Proof.
  unfold well_typed_call.
  destruct (dict_get "method" message) as [[| | | | method | |] |];
    try discriminate.
  destruct (method =? "tools/call") eqn:Hm; [| discriminate].
  apply String.eqb_eq in Hm; now subst.
Qed.

(** On a well-typed object [handle_message] returns a response that echoes
    the request's id and has exactly one of [result] and [error]. *)
Lemma handle_message_returns (E : Env) (message : dict) :
  well_typed_call message = true ->
  answered (handle_message E (JDict message)) (request_id message).
Proof.
  intros Hw; unfold answered; rewrite handle_message_object; cbv zeta.
  destruct (py_eq_str _ "initialize"); [eexists; repeat split |].
  destruct (py_eq_str _ "tools/list"); [eexists; repeat split |].
  destruct (py_eq_str _ "tools/call") eqn:Hc.
  - apply method_of_test in Hc.
    destruct (tools_call_well_typed E message (request_id message) Hc Hw)
      as [-> | (payload & ->)]; cbn [bind]; eexists; repeat split.
  - cbn [bind]; eexists; repeat split.
Qed.

(** On an ill-typed [tools/call] it raises. *)
Lemma handle_message_raises (E : Env) (message : dict) :
  well_typed_call message = false ->
  handle_message E (JDict message) = Raise AttributeError.
Proof.
  intros Hw; pose proof (ill_typed_is_tools_call _ Hw) as Hm.
  rewrite handle_message_object; cbv zeta.
  rewrite (tools_call_ill_typed E message (request_id message) Hm Hw).
  rewrite Hm; reflexivity.
Qed.

Lemma handle_message_not_object (E : Env) (v : json) :
  (forall d, v <> JDict d) -> handle_message E v = Raise AttributeError.
Proof.
  intros H; destruct v; try reflexivity.
  now destruct (H d).
Qed.

End SimpleServerFacts.

(* ================================================================= *)
(** ** The rich server: image normalisation and tool payloads *)

Module ServerFacts.

Import Server StringFacts.

Lemma try_except_none {A : Type} (c : result (option A)) :
  exists r, try_except c (fun _ => Ok None) = Ok r.
Proof. destruct c; eexists; reflexivity. Qed.

Lemma size_limit_value : size_limit = 5242880%Z.
Proof. reflexivity. Qed.

Lemma no_supported_format (content_type : string) :
  Forall (fun fmt => ~ contains fmt content_type) supported_formats ->
  existsb (fun fmt => str_in fmt content_type) supported_formats = false.
Proof.
  intros H; apply not_true_is_false; intros Hex.
  apply existsb_exists in Hex; destruct Hex as (fmt & Hin & Hfmt).
  rewrite Forall_forall in H.
  apply (H fmt Hin), str_in_contains, Hfmt.
Qed.

(** The URL helper never raises. *)
Lemma process_image_url_total (E : Env) (url : string) :
  exists r, _process_image_url E url = Ok r.
Proof. apply try_except_none. Qed.

Lemma process_image_url_fetch_fault (E : Env) (url : string) (e : exn) :
  http_get E url = Raise e -> _process_image_url E url = Ok None.
Proof. intros H; unfold _process_image_url; rewrite H; reflexivity. Qed.

Lemma process_image_url_status_fault (E : Env) (url : string)
    (response : http_response) (e : exn) :
  http_get E url = Ok response ->
  raise_for_status response = Raise e ->
  _process_image_url E url = Ok None.
Proof.
  intros H Hs; unfold _process_image_url; rewrite H; cbn [bind].
  rewrite Hs; reflexivity.
Qed.

Lemma process_image_url_media_type (E : Env) (url : string)
    (response : http_response) :
  http_get E url = Ok response ->
  Forall (fun fmt => ~ contains fmt (declared_media_type response))
    supported_formats ->
  _process_image_url E url = Ok None.
Proof.
  intros H Hm; unfold _process_image_url; rewrite H; cbn [bind].
  destruct (raise_for_status response); cbn [bind try_except]; [| reflexivity].
  rewrite (no_supported_format _ Hm); reflexivity.
Qed.

Lemma process_image_url_too_large (E : Env) (url : string)
    (response : http_response) :
  http_get E url = Ok response ->
  (size_limit < Z.of_nat (List.length (content response)))%Z ->
  _process_image_url E url = Ok None.
Proof.
  intros H Hl; unfold _process_image_url; rewrite H; cbn [bind].
  destruct (raise_for_status response); cbn [bind try_except]; [| reflexivity].
  destruct (negb _); [reflexivity |].
  apply Z.ltb_lt in Hl; rewrite Hl; reflexivity.
Qed.

(** The inline-data helper never raises. *)
Lemma process_base64_image_total (E : Env) (data : string) :
  exists r, _process_base64_image E data = Ok r.
Proof. apply try_except_none. Qed.

Lemma process_base64_image_prefix_fault (E : Env) (data : string) (e : exn) :
  without_data_url_prefix data = Raise e ->
  _process_base64_image E data = Ok None.
Proof. intros H; unfold _process_base64_image; rewrite H; reflexivity. Qed.

Lemma process_base64_image_decode_fault (E : Env) (data encoded : string)
    (e : exn) :
  without_data_url_prefix data = Ok encoded ->
  b64decode E encoded = Raise e ->
  _process_base64_image E data = Ok None.
Proof.
  intros H Hd; unfold _process_base64_image; rewrite H; cbn [bind].
  rewrite Hd; reflexivity.
Qed.

Lemma process_base64_image_too_large (E : Env) (data encoded : string)
    (image_bytes : list Byte.byte) :
  without_data_url_prefix data = Ok encoded ->
  b64decode E encoded = Ok image_bytes ->
  (size_limit < Z.of_nat (List.length image_bytes))%Z ->
  _process_base64_image E data = Ok None.
Proof.
  intros H Hd Hl; unfold _process_base64_image; rewrite H; cbn [bind].
  rewrite Hd; cbn [bind]; apply Z.ltb_lt in Hl; rewrite Hl; reflexivity.
Qed.

(** [analyze_image] never raises: whatever escapes its body is turned into
    the error envelope by the [except] clause. *)
Lemma analyze_image_total (E : Env) (image_data context : json) :
  exists payload, analyze_image E image_data context = Ok payload.
Proof.
  unfold analyze_image.
  destruct (bind (normalize_image E image_data) _); eexists; reflexivity.
Qed.

Lemma analyze_image_none (E : Env) (image_data context : json) :
  normalize_image E image_data = Ok None ->
  analyze_image E image_data context
  = Ok (_create_error_response "Invalid image format or size").
Proof. intros H; unfold analyze_image; rewrite H; reflexivity. Qed.

Lemma analyze_image_fault (E : Env) (image_data context : json) (e : exn) :
  normalize_image E image_data = Raise e ->
  analyze_image E image_data context
  = Ok (_create_error_response ("Analysis failed: " ++ str_exn E e)).
Proof. intros H; unfold analyze_image; rewrite H; reflexivity. Qed.

Lemma create_error_response_envelope (error_message : string) :
  error_envelope (_create_error_response error_message).
Proof.
  unfold error_envelope; split; [reflexivity |].
  split; [exists error_message; reflexivity |].
  eexists; repeat split.
Qed.

(** Whatever [analyze_image] returns is a success payload with the one
    literal list of suggestions, or an error envelope. *)
Lemma analyze_image_outcomes (E : Env) (image_data context payload : json) :
  analyze_image E image_data context = Ok payload ->
  (field "success" payload = Some (JBool true)
   /\ field "alt_suggestions" payload = Some (JList rich_suggestions)
   /\ field "context_used" payload = Some context)
  \/ error_envelope payload.
Proof.
  unfold analyze_image.
  destruct (normalize_image E image_data) as [image_input | e]; cbn [bind].
  - destruct (falsy_input image_input); cbn [try_except].
    + intros H; injection H as <-; right; apply create_error_response_envelope.
    + unfold _generate_alt_text_options.
      destruct (_build_context_prompt E context); cbn [bind try_except].
      * intros H; injection H as <-; left; repeat split.
      * intros H; injection H as <-; right; apply create_error_response_envelope.
  - cbn [try_except]; intros H; injection H as <-.
    right; apply create_error_response_envelope.
Qed.

Lemma expected_checks_cases (alt_text : string) :
  (alt_text = "" ->
   expected_checks alt_text
   = ([ "Missing alt text" ], [ "Add descriptive alt text" ]))
  /\ ((0 < String.length alt_text)%nat -> (String.length alt_text < 10)%nat ->
      expected_checks alt_text
      = ([ "Alt text too brief" ], [ "Provide more descriptive detail" ]))
  /\ ((125 < String.length alt_text)%nat ->
      expected_checks alt_text
      = ([ "Alt text may be too long" ],
         [ "Consider condensing to essential information" ]))
  /\ ((10 <= String.length alt_text <= 125)%nat ->
      expected_checks alt_text = ([], [])).
Proof.
  unfold expected_checks.
  repeat split; intros.
  - subst; reflexivity.
  - destruct (Nat.eqb_spec (String.length alt_text) 0); [lia |].
    destruct (Nat.ltb_spec (String.length alt_text) 10); [reflexivity | lia].
  - destruct (Nat.eqb_spec (String.length alt_text) 0); [lia |].
    destruct (Nat.ltb_spec (String.length alt_text) 10); [lia |].
    destruct (Nat.ltb_spec 125 (String.length alt_text)); [reflexivity | lia].
  - destruct (Nat.eqb_spec (String.length alt_text) 0); [lia |].
    destruct (Nat.ltb_spec (String.length alt_text) 10); [lia |].
    destruct (Nat.ltb_spec 125 (String.length alt_text)); [lia | reflexivity].
Qed.

(** The payload of [validate_alt_text_quality] for a string [alt_text]. *)
Lemma validate_payload (arguments : dict) (alt_text : string) :
  string_argument "alt_text" arguments = Some alt_text ->
  validate_alt_text_quality (JDict arguments)
  = Ok (let length := Z.of_nat (String.length alt_text) in
        let checks := quality_checks (JStr alt_text) length in
        JDict
          [ ("alt_text", JStr alt_text);
            ("length", JInt length);
            ("quality_score",
              JFloat (if negb (alt_text =? "")
                      then py_min 1 (true_div length 50) else 0 # 1));
            ("issues", JList (map JStr (fst checks)));
            ("suggestions", JList (map JStr (snd checks))) ]).
Proof.
  intros H; unfold validate_alt_text_quality.
  rewrite (SimpleServerFacts.string_argument_get _ _ _ H); cbn [bind py_get py_len truthy].
  destruct (quality_checks _ _); reflexivity.
Qed.

Lemma quality_checks_expected (alt_text : string) :
  quality_checks (JStr alt_text) (Z.of_nat (String.length alt_text))
  = expected_checks alt_text.
Proof.
  unfold quality_checks, expected_checks; cbn [truthy].
  rewrite negb_involutive, eqb_empty_length.
  destruct (String.length alt_text =? 0)%nat; [reflexivity |].
  destruct (Z.ltb_spec (Z.of_nat (String.length alt_text)) 10),
           (Nat.ltb_spec (String.length alt_text) 10); try lia; [reflexivity |].
  destruct (Z.ltb_spec 125 (Z.of_nat (String.length alt_text))),
           (Nat.ltb_spec 125 (String.length alt_text)); try lia; reflexivity.
Qed.

Lemma true_div_fraction (n : Z) : true_div n 50 == n # 50.
Proof. unfold Qeq, true_div, Qdiv, Qmult, Qinv, inject_Z; cbn; lia. Qed.

(** The score in closed form: the fraction up to 50 characters, 1 from 50 on. *)
Lemma quality_score_closed_form (n : Z) :
  ((n <= 50)%Z -> py_min 1 (true_div n 50) == n # 50)
  /\ ((50 <= n)%Z -> py_min 1 (true_div n 50) == 1).
Proof.
  rewrite py_min_Qmin; split; intros H.
  - rewrite Q.min_r; [apply true_div_fraction |].
    rewrite true_div_fraction; unfold Qle; cbn; lia.
  - rewrite Q.min_l; [reflexivity |].
    rewrite true_div_fraction; unfold Qle; cbn; lia.
Qed.

(** The payload of [analyze_image_context] for a string [current_alt]. *)
Lemma analyze_image_context_payload (arguments : dict) (current_alt : string) :
  string_argument "current_alt" arguments = Some current_alt ->
  exists analysis,
    analyze_image_context (JDict arguments) = Ok (JDict analysis)
    /\ dict_get "current_alt_evaluation" analysis
       = Some
           (JDict
              [ ("text", JStr current_alt);
                ("length", JInt (Z.of_nat (String.length current_alt)));
                ("quality_score",
                  JFloat (if current_alt =? "" then 0 # 1 else 5 # 10));
                ("recommendations",
                  JList
                    [ JStr (if current_alt =? ""
                            then "Add descriptive alt text"
                            else "Consider more descriptive language");
                      JStr "Ensure essential information is conveyed";
                      JStr "Keep under 125 characters when possible" ]) ]).
Proof.
  intros H; unfold analyze_image_context.
  rewrite (SimpleServerFacts.string_argument_get _ _ _ H).
  cbn [bind py_get py_len truthy].
  destruct current_alt as [| c rest]; cbn [String.eqb negb bind];
    eexists; split; reflexivity.
Qed.

End ServerFacts.

(* ================================================================= *)
(** ** Properties of the specification *)

Import StringFacts SimpleServerFacts ServerFacts.

(** C1, as amended.  In the minimal server, for every call of
    [generate_alt_text] whose [context] is a mapping and whose [page_title]
    is a string (each when present): if the title contains "product" up to
    case, or [page_topic] is "ecommerce", the handler returns the product
    set, and otherwise the generic set; each set has exactly three
    suggestions of types brief, moderate, detailed, in that order.  The rich
    server's handler never raises and does not look at the context: whenever
    it reports success its suggestions are its own fixed list of three, of
    the same types. *)
Theorem generate_alt_text_selects_fixture_set
    (arguments context : dict) (page_title : string) :
  mapping_argument "context" arguments = Some context ->
  string_argument "page_title" context = Some page_title ->
  (product_signal context page_title ->
   returns_suggestions (SimpleServer.generate_alt_text (JDict arguments))
     SimpleServer.product_suggestions)
  /\ (~ product_signal context page_title ->
      returns_suggestions (SimpleServer.generate_alt_text (JDict arguments))
        SimpleServer.generic_suggestions)
  /\ types_of SimpleServer.product_suggestions = brief_moderate_detailed
  /\ types_of SimpleServer.generic_suggestions = brief_moderate_detailed
  /\ types_of Server.rich_suggestions = brief_moderate_detailed
  /\ forall E : Env,
       exists payload,
         Server.generate_alt_text E (JDict arguments) = Ok payload
         /\ (field "success" payload = Some (JBool true) ->
             field "alt_suggestions" payload
             = Some (JList Server.rich_suggestions)).
Proof.
  intros Hc Ht.
  pose proof (generate_alt_text_payload _ _ _ Hc Ht) as Hp.
  pose proof (signal_test context page_title) as Hs.
  repeat split.
  - intros Hsig; apply Hs in Hsig.
    eexists; split; [exact Hp |].
    unfold payload_for, field; cbn [dict_get String.eqb Ascii.eqb Bool.eqb].
    rewrite Hsig; reflexivity.
  - intros Hsig.
    eexists; split; [exact Hp |].
    unfold payload_for, field; cbn [dict_get String.eqb Ascii.eqb Bool.eqb].
    destruct (_ || _); [| reflexivity].
    exfalso; apply Hsig, Hs; reflexivity.
  - intros E; unfold Server.generate_alt_text.
    change (py_get (JDict arguments) "image_data" (JStr ""))
      with (Ok (match dict_get "image_data" arguments with
                | Some v => v
                | None => JStr ""
                end)).
    cbn [bind]; rewrite (mapping_argument_get _ _ _ Hc); cbn [bind].
    destruct (analyze_image_total E
                (match dict_get "image_data" arguments with
                 | Some v => v
                 | None => JStr ""
                 end) (JDict context)) as [payload Hpayload].
    exists payload; split; [exact Hpayload |].
    destruct (analyze_image_outcomes _ _ _ _ Hpayload) as [(_ & Hsug & _) | Herr].
    + intros _; exact Hsug.
    + destruct Herr as (Hfalse & _); intros Htrue; congruence.
Qed.

Lemma generate_alt_text_selects_fixture_set_witness :
  returns_suggestions
    (SimpleServer.generate_alt_text (JDict Sample.test_call_arguments))
    SimpleServer.product_suggestions.
Proof.
  refine (proj1 (generate_alt_text_selects_fixture_set
                   Sample.test_call_arguments
                   [ ("page_title", JStr "Smartphone Product Page");
                     ("page_topic", JStr "ecommerce") ]
                   "Smartphone Product Page" eq_refl eq_refl) _).
  right; reflexivity.
Defined.

(** C1 fails as stated.  In the rich server, with [page_topic] "ecommerce"
    and inline image data that decodes, the handler does not return the
    product set; in the minimal server, with a [page_title] that is JSON
    null and no other signal, the handler raises instead of returning the
    generic set. *)
Lemma generate_alt_text_is_not_uniform :
  product_signal [ ("page_topic", JStr "ecommerce") ] ""
  /\ mapping_argument "context" Sample.ecommerce_arguments
     = Some [ ("page_topic", JStr "ecommerce") ]
  /\ ~ returns_suggestions
         (Server.generate_alt_text Sample.env (JDict Sample.ecommerce_arguments))
         SimpleServer.product_suggestions
  /\ ~ returns_suggestions
         (SimpleServer.generate_alt_text (JDict Sample.null_title_arguments))
         SimpleServer.generic_suggestions.
Proof.
  split; [right; reflexivity |].
  split; [reflexivity |].
  split.
  - intros (payload & Hret & Hfield).
    vm_compute in Hret; injection Hret as <-.
    vm_compute in Hfield; discriminate Hfield.
  - intros (payload & Hret & _).
    vm_compute in Hret; discriminate Hret.
Qed.

(** C5, as amended.  For every parsed request that is an object carrying an
    id: when its [tools/call] payload is well typed ([params] a mapping and,
    for the tool [generate_alt_text], [arguments] and [context] mappings and
    [page_title] a string, each when present; every request of another
    method is well typed), [handle_message] returns one response whose id is
    the request's and which has [result] or [error] but not both; otherwise
    it raises [AttributeError] and returns no response. *)
Theorem handle_message_echoes_id (E : Env) (message : dict) (id : json) :
  dict_get "id" message = Some id ->
  (well_typed_call message = true ->
   answered (SimpleServer.handle_message E (JDict message)) id)
  /\ (well_typed_call message = false ->
      SimpleServer.handle_message E (JDict message) = Raise AttributeError).
Proof.
  intros Hid; split.
  - intros Hw; pose proof (handle_message_returns E message Hw) as H.
    unfold request_id in H; rewrite Hid in H; exact H.
  - apply handle_message_raises.
Qed.

Lemma handle_message_echoes_id_witness :
  answered
    (SimpleServer.handle_message Sample.env (JDict Sample.test_call_message))
    (JInt 3).
Proof.
  apply (proj1 (handle_message_echoes_id Sample.env Sample.test_call_message
                  (JInt 3) eq_refl)).
  reflexivity.
Defined.

(** C5 fails as stated: a request with id 1 that calls [generate_alt_text]
    with a context whose [page_title] is JSON null (an input the declared
    schema admits) gets no response from [handle_message], which raises. *)
Lemma null_title_request_is_not_answered :
  dict_get "id" Sample.null_title_message = Some (JInt 1)
  /\ SimpleServer.handle_message Sample.env (JDict Sample.null_title_message)
     = Raise AttributeError
  /\ ~ answered
         (SimpleServer.handle_message Sample.env
            (JDict Sample.null_title_message))
         (JInt 1).
Proof.
  split; [reflexivity |].
  split; [reflexivity |].
  intros (response & Hret & _).
  vm_compute in Hret; discriminate Hret.
Qed.

(** C6.  A request with an id whose method is a string other than
    "initialize", "tools/list" and "tools/call" is answered by an error
    response with code -32601 and the same id, whose message contains the
    method name. *)
Theorem unknown_method_is_reported (E : Env) (message : dict)
    (method : string) (id : json) :
  dict_get "method" message = Some (JStr method) ->
  dict_get "id" message = Some id ->
  method <> "initialize" ->
  method <> "tools/list" ->
  method <> "tools/call" ->
  exists response text,
    SimpleServer.handle_message E (JDict message) = Ok response
    /\ field "id" response = Some id
    /\ error_response response (-32601) text
    /\ contains method text.
Proof.
  intros Hm Hid H1 H2 H3.
  exists (SimpleServer.method_not_found E id (JStr method)),
         ("Method not found: " ++ method)%string.
  split.
  - rewrite handle_message_object; unfold request_id; rewrite Hm, Hid.
    cbv zeta; cbn [py_eq_str].
    apply String.eqb_neq in H1, H2, H3; rewrite H1, H2, H3; reflexivity.
  - split; [reflexivity |].
    split; [eexists; repeat split |].
    exists "Method not found: ", ""%string.
    now rewrite append_empty_r.
Qed.

Lemma unknown_method_is_reported_witness :
  exists response text,
    SimpleServer.handle_message Sample.env (JDict Sample.bogus_message)
    = Ok response
    /\ field "id" response = Some (JInt 7)
    /\ error_response response (-32601) text
    /\ contains "bogus" text.
Proof.
  apply (unknown_method_is_reported Sample.env Sample.bogus_message "bogus"
           (JInt 7) eq_refl eq_refl); discriminate.
Defined.

(** C9, as amended.  The one tool descriptor of the minimal server declares
    [image_data] as required, and yet a [tools/call] of [generate_alt_text]
    whose arguments leave [image_data] out, and whose [context] is a mapping
    and [page_title] a string (each when present), is answered normally:
    the handler returns the payload that the context alone determines (the
    same for every value of [image_data] that could have been supplied, the
    empty string included), with [success] true, and the response carries
    it under [result], without [error]. *)
Theorem missing_image_data_is_not_rejected (E : Env)
    (message params arguments context : dict) (page_title : string) :
  dict_get "method" message = Some (JStr "tools/call") ->
  mapping_argument "params" message = Some params ->
  dict_get "name" params = Some (JStr "generate_alt_text") ->
  mapping_argument "arguments" params = Some arguments ->
  dict_get "image_data" arguments = None ->
  mapping_argument "context" arguments = Some context ->
  string_argument "page_title" context = Some page_title ->
  (exists tool,
     SimpleServer.tools = JList [ tool ]
     /\ field "name" tool = Some (JStr "generate_alt_text")
     /\ required_of tool = Some (JList [ JStr "image_data" ]))
  /\ answered_with_success E message arguments
  /\ SimpleServer.generate_alt_text (JDict arguments)
     = Ok (payload_for context page_title)
  /\ (forall image_data,
        SimpleServer.generate_alt_text
          (JDict (("image_data", image_data) :: arguments))
        = Ok (payload_for context page_title))
  /\ SimpleServer.handle_message E (JDict message)
     = Ok (SimpleServer.tool_call_response E (request_id message)
             (payload_for context page_title)).
Proof.
  intros Hm Hp Hn Ha Hi Hc Ht.
  pose proof (generate_alt_text_payload _ _ _ Hc Ht) as Hpayload.
  assert (Hresponse :
            SimpleServer.handle_message E (JDict message)
            = Ok (SimpleServer.tool_call_response E (request_id message)
                    (payload_for context page_title))).
  { rewrite handle_message_object; rewrite Hm; cbv zeta; cbn [py_eq_str].
    change ("tools/call" =? "initialize") with false.
    change ("tools/call" =? "tools/list") with false.
    change ("tools/call" =? "tools/call") with true.
    cbv iota; unfold SimpleServer.tools_call.
    rewrite (mapping_argument_get _ _ _ Hp); cbn [bind].
    change (py_get (JDict params) "name" JNone)
      with (Ok (match dict_get "name" params with
                | Some v => v | None => JNone end)).
    rewrite Hn; cbn [bind].
    rewrite (mapping_argument_get _ _ _ Ha); cbn [bind py_eq_str].
    change ("generate_alt_text" =? "generate_alt_text") with true.
    cbv iota; rewrite Hpayload; reflexivity. }
  split; [eexists; repeat split |].
  split.
  { exists (payload_for context page_title).
    eexists; split; [exact Hpayload |].
    split; [reflexivity |].
    split; [exact Hresponse |].
    repeat split. }
  split; [exact Hpayload |].
  split; [| exact Hresponse].
  intros image_data; apply generate_alt_text_payload; [exact Hc | exact Ht].
Qed.

Lemma missing_image_data_is_not_rejected_witness :
  answered_with_success Sample.env Sample.no_image_message []
  /\ SimpleServer.generate_alt_text (JDict []) = Ok (payload_for [] "")
  /\ SimpleServer.generate_alt_text (JDict [ ("image_data", JStr "") ])
     = Ok (payload_for [] "").
Proof.
  destruct (missing_image_data_is_not_rejected Sample.env
              Sample.no_image_message
              [ ("name", JStr "generate_alt_text"); ("arguments", JDict []) ]
              [] [] "" eq_refl eq_refl eq_refl eq_refl eq_refl eq_refl
              eq_refl) as (_ & Hanswered & Hpayload & Hany & _).
  split; [exact Hanswered |].
  split; [exact Hpayload | exact (Hany (JStr ""))].
Defined.

(** C9 fails as stated: a [tools/call] of [generate_alt_text] whose
    arguments leave [image_data] out and carry a context with a null
    [page_title] is not answered with a success result; the handler raises
    [AttributeError] and [handle_message] returns no response. *)
Lemma missing_image_data_with_null_title_raises :
  dict_get "method" Sample.no_image_null_title_message
  = Some (JStr "tools/call")
  /\ dict_get "image_data" Sample.no_image_null_title_arguments = None
  /\ SimpleServer.generate_alt_text (JDict Sample.no_image_null_title_arguments)
     = Raise AttributeError
  /\ SimpleServer.handle_message Sample.env
       (JDict Sample.no_image_null_title_message)
     = Raise AttributeError
  /\ ~ answered_with_success Sample.env Sample.no_image_null_title_message
         Sample.no_image_null_title_arguments.
Proof.
  split; [reflexivity |].
  split; [reflexivity |].
  split; [reflexivity |].
  split; [reflexivity |].
  intros (payload & response & Hpayload & _).
  vm_compute in Hpayload; discriminate Hpayload.
Qed.

(** C10, as amended.  In the minimal server a non-blank line that parses to
    an object without an id (a notification) and whose handling does not
    raise (see C5) gets exactly one printed response, whose id is null; when
    handling raises, the read loop logs the fault and prints nothing. *)
Theorem notification_gets_null_id_response (E : Env) (line : string)
    (message : dict) :
  (strip line =? "") = false ->
  json_loads E line = Ok (JDict message) ->
  dict_get "id" message = None ->
  (well_typed_call message = true ->
   exists response,
     SimpleServer.handle_message E (JDict message) = Ok response
     /\ field "id" response = Some JNone
     /\ SimpleServer.main_step E line = [ SimpleServer.Printed (json_dumps E response) ])
  /\ (well_typed_call message = false ->
      SimpleServer.main_step E line
      = [ SimpleServer.Logged
            ("Error handling message: " ++ str_exn E AttributeError) ]).
Proof.
  intros Hs Hl Hid; unfold SimpleServer.main_step; rewrite Hs, Hl; cbn [bind].
  split; intros Hw.
  - destruct (handle_message_returns E message Hw) as (response & Hr & Hi & _).
    unfold request_id in Hi; rewrite Hid in Hi.
    exists response; rewrite Hr; repeat split; assumption.
  - rewrite (handle_message_raises E message Hw); reflexivity.
Qed.

Lemma notification_gets_null_id_response_witness :
  exists response,
    SimpleServer.handle_message Sample.env (JDict Sample.ping_notification)
    = Ok response
    /\ field "id" response = Some JNone
    /\ SimpleServer.main_step Sample.env Sample.ping_line
       = [ SimpleServer.Printed (json_dumps Sample.env response) ].
Proof.
  apply (proj1 (notification_gets_null_id_response Sample.env Sample.ping_line
                  Sample.ping_notification eq_refl eq_refl eq_refl)).
  reflexivity.
Defined.

(** C10 fails as stated: the notification that calls [generate_alt_text]
    with a null [page_title] parses, has no id, and the read loop logs the
    fault and prints no response for it. *)
Lemma null_title_notification_is_absorbed :
  json_loads Sample.env Sample.null_title_line
  = Ok (JDict Sample.null_title_notification)
  /\ dict_get "id" Sample.null_title_notification = None
  /\ SimpleServer.main_step Sample.env Sample.null_title_line
     = [ SimpleServer.Logged "Error handling message: AttributeError" ]
  /\ ~ emits_one_response Sample.env Sample.null_title_line JNone.
Proof.
  split; [reflexivity |].
  split; [reflexivity |].
  split; [reflexivity |].
  intros (response & Hprinted & _).
  vm_compute in Hprinted; discriminate Hprinted.
Qed.

(** C2.  For a string [alt_text] (absent counts as empty) the payload of
    [validate_alt_text_quality] has [quality_score] equal to
    [min(1, length / 50)] when the string is not empty and to 0 when it is. *)
Theorem quality_score_formula (E : Env) (arguments : dict) (alt_text : string) :
  string_argument "alt_text" arguments = Some alt_text ->
  exists payload,
    Server.handle_call_tool E "validate_alt_text_quality" (JDict arguments)
    = Ok (Server.text_result E payload)
    /\ (alt_text <> "" ->
        field "quality_score" payload
        = Some (JFloat (Qmin 1 (inject_Z (Z.of_nat (String.length alt_text)) / 50))))
    /\ (alt_text = "" -> field "quality_score" payload = Some (JFloat 0)).
Proof.
  intros H; eexists; split.
  - unfold Server.handle_call_tool.
    change ("validate_alt_text_quality" =? "generate_alt_text") with false.
    change ("validate_alt_text_quality" =? "analyze_image_context") with false.
    change ("validate_alt_text_quality" =? "validate_alt_text_quality") with true.
    cbv iota; rewrite (validate_payload _ _ H); reflexivity.
  - cbv zeta; unfold field; cbn [dict_get].
    change ("alt_text" =? "quality_score") with false.
    change ("length" =? "quality_score") with false.
    change ("quality_score" =? "quality_score") with true.
    cbv iota; split.
    + intros Hne; apply String.eqb_neq in Hne; rewrite Hne; cbn [negb].
      rewrite py_min_Qmin; reflexivity.
    + intros ->; reflexivity.
Qed.

Lemma quality_score_formula_witness :
  exists payload,
    Server.handle_call_tool Sample.env "validate_alt_text_quality"
      (JDict [ ("alt_text", JStr "A red bicycle"); ("image_data", JStr "aGk=") ])
    = Ok (Server.text_result Sample.env payload)
    /\ field "quality_score" payload = Some (JFloat (Qmin 1 (13 / 50))).
Proof.
  destruct (quality_score_formula Sample.env
              [ ("alt_text", JStr "A red bicycle"); ("image_data", JStr "aGk=") ]
              "A red bicycle" eq_refl) as (payload & Hcall & Hscore & _).
  exists payload; split; [exact Hcall |].
  apply Hscore; discriminate.
Defined.

(** C3 does not hold of the code: the [length] literals of the fixtures
    disagree with the character counts of their texts.  The call of
    [test_simple_server.py] returns the product set, whose first suggestion
    has [length] 35 for a text of 34 characters; of the three sets only the
    first, or the second, entry is consistent, while the fallback of the
    error envelope is. *)
Theorem fixture_lengths_disagree_with_texts :
  returns_suggestions
    (SimpleServer.generate_alt_text (JDict Sample.test_call_arguments))
    SimpleServer.product_suggestions
  /\ (exists brief others,
        SimpleServer.product_suggestions = brief :: others
        /\ field "length" brief = Some (JInt 35)
        /\ field "text" brief = Some (JStr "Product image showing key features")
        /\ String.length "Product image showing key features" = 34%nat)
  /\ map length_consistent SimpleServer.product_suggestions = [ false; true; false ]
  /\ map length_consistent SimpleServer.generic_suggestions = [ true; false; false ]
  /\ map length_consistent Server.rich_suggestions = [ true; false; false ]
  /\ map length_consistent Server.options_fallback = [ false ]
  /\ forall message,
       field "alt_suggestions" (Server._create_error_response message)
       = Some (JList
                 [ Server.suggestion "fallback"
                     "Image description unavailable - please add manual alt text"
                     58 (0 # 1) ])
       /\ length_consistent
            (Server.suggestion "fallback"
               "Image description unavailable - please add manual alt text"
               58 (0 # 1)) = true.
Proof.
  split; [eexists; split; reflexivity |].
  split; [eexists; eexists; repeat split |].
  repeat split.
Qed.

(** C4.  For a string [alt_text] (absent counts as empty) the [issues] and
    [suggestions] of [validate_alt_text_quality] follow mutually exclusive
    thresholds: empty gives "Missing alt text" / "Add descriptive alt text";
    otherwise fewer than 10 characters give "Alt text too brief" / "Provide
    more descriptive detail"; otherwise more than 125 give "Alt text may be
    too long" / "Consider condensing to essential information"; otherwise
    both lists are empty. *)
Theorem quality_issue_thresholds (E : Env) (arguments : dict)
    (alt_text : string) :
  string_argument "alt_text" arguments = Some alt_text ->
  exists payload issues suggestions,
    Server.handle_call_tool E "validate_alt_text_quality" (JDict arguments)
    = Ok (Server.text_result E payload)
    /\ field "issues" payload = Some (JList (map JStr issues))
    /\ field "suggestions" payload = Some (JList (map JStr suggestions))
    /\ (alt_text = "" ->
        issues = [ "Missing alt text" ]
        /\ suggestions = [ "Add descriptive alt text" ])
    /\ (alt_text <> "" -> (String.length alt_text < 10)%nat ->
        issues = [ "Alt text too brief" ]
        /\ suggestions = [ "Provide more descriptive detail" ])
    /\ ((125 < String.length alt_text)%nat ->
        issues = [ "Alt text may be too long" ]
        /\ suggestions = [ "Consider condensing to essential information" ])
    /\ ((10 <= String.length alt_text <= 125)%nat ->
        issues = [] /\ suggestions = []).
Proof.
  intros H.
  eexists; exists (fst (expected_checks alt_text)), (snd (expected_checks alt_text)).
  split.
  - unfold Server.handle_call_tool.
    change ("validate_alt_text_quality" =? "generate_alt_text") with false.
    change ("validate_alt_text_quality" =? "analyze_image_context") with false.
    change ("validate_alt_text_quality" =? "validate_alt_text_quality") with true.
    cbv iota; rewrite (validate_payload _ _ H); reflexivity.
  - cbv zeta; rewrite quality_checks_expected.
    split; [reflexivity |]; split; [reflexivity |].
    pose proof (expected_checks_cases alt_text) as (H0 & H1 & H2 & H3).
    repeat split; intros; try (rewrite H0 by (subst; reflexivity); reflexivity).
    + rewrite H1; [reflexivity | destruct alt_text; [congruence | cbn; lia] | assumption].
    + rewrite H1; [reflexivity | destruct alt_text; [congruence | cbn; lia] | assumption].
    + rewrite H2 by assumption; reflexivity.
    + rewrite H2 by assumption; reflexivity.
    + rewrite H3 by assumption; reflexivity.
    + rewrite H3 by assumption; reflexivity.
Qed.

Lemma quality_issue_thresholds_witness :
  exists payload,
    Server.handle_call_tool Sample.env "validate_alt_text_quality"
      (JDict [ ("alt_text", JStr "Hi"); ("image_data", JStr "aGk=") ])
    = Ok (Server.text_result Sample.env payload)
    /\ field "issues" payload = Some (JList [ JStr "Alt text too brief" ])
    /\ field "suggestions" payload
       = Some (JList [ JStr "Provide more descriptive detail" ]).
Proof.
  destruct (quality_issue_thresholds Sample.env
              [ ("alt_text", JStr "Hi"); ("image_data", JStr "aGk=") ] "Hi"
              eq_refl)
    as (payload & issues & suggestions & Hcall & Hi & Hs & _ & Hbrief & _).
  destruct Hbrief as [-> ->]; [discriminate | cbn; lia |].
  exists payload; repeat split; assumption.
Defined.

(** C7.  The two normalisation helpers never raise.  The URL helper returns
    [None] when the fetch or the status check faults, when the declared
    media type contains none of jpeg, jpg, png, gif, webp, and when the
    content is longer than 5 MiB; the inline-data helper returns [None] when
    the prefix removal or the decoding faults and when the decoded bytes are
    longer than 5 MiB.  [analyze_image] never raises, and turns a [None]
    (or a fault) of the normalisation into the error envelope: [success]
    false and a single fallback suggestion of confidence 0.0. *)
Theorem normalization_failures_become_error_envelopes (E : Env) :
  (forall url, exists r, Server._process_image_url E url = Ok r)
  /\ (forall data, exists r, Server._process_base64_image E data = Ok r)
  /\ (forall url e,
        http_get E url = Raise e -> Server._process_image_url E url = Ok None)
  /\ (forall url response,
        http_get E url = Ok response ->
        (exists e, raise_for_status response = Raise e)
        \/ Forall (fun fmt => ~ contains fmt (Server.declared_media_type response))
             [ "jpeg"; "jpg"; "png"; "gif"; "webp" ]
        \/ (5242880 < Z.of_nat (List.length (content response)))%Z ->
        Server._process_image_url E url = Ok None)
  /\ (forall data e,
        Server.without_data_url_prefix data = Raise e ->
        Server._process_base64_image E data = Ok None)
  /\ (forall data encoded,
        Server.without_data_url_prefix data = Ok encoded ->
        (exists e, b64decode E encoded = Raise e)
        \/ (exists image_bytes,
              b64decode E encoded = Ok image_bytes
              /\ (5242880 < Z.of_nat (List.length image_bytes))%Z) ->
        Server._process_base64_image E data = Ok None)
  /\ (forall image_data context,
        exists payload, Server.analyze_image E image_data context = Ok payload)
  /\ (forall image_data context,
        Server.normalize_image E image_data = Ok None ->
        exists payload,
          Server.analyze_image E image_data context = Ok payload
          /\ error_envelope payload
          /\ field "error" payload = Some (JStr "Invalid image format or size"))
  /\ (forall image_data context e,
        Server.normalize_image E image_data = Raise e ->
        exists payload,
          Server.analyze_image E image_data context = Ok payload
          /\ error_envelope payload).
Proof.
  split; [apply process_image_url_total |].
  split; [apply process_base64_image_total |].
  split; [apply process_image_url_fetch_fault |].
  split.
  { intros url response Hget [(e & He) | [Hm | Hl]].
    - exact (process_image_url_status_fault E url response e Hget He).
    - exact (process_image_url_media_type E url response Hget Hm).
    - exact (process_image_url_too_large E url response Hget Hl). }
  split; [apply process_base64_image_prefix_fault |].
  split.
  { intros data encoded Hp [(e & He) | (image_bytes & Hd & Hl)].
    - exact (process_base64_image_decode_fault E data encoded e Hp He).
    - exact (process_base64_image_too_large E data encoded image_bytes Hp Hd Hl). }
  split; [apply analyze_image_total |].
  split.
  - intros image_data context H; eexists.
    split; [exact (analyze_image_none E image_data context H) |].
    split; [apply create_error_response_envelope | reflexivity].
  - intros image_data context e H; eexists.
    split; [exact (analyze_image_fault E image_data context e H) |].
    apply create_error_response_envelope.
Qed.

Lemma normalization_failures_become_error_envelopes_witness :
  Server._process_image_url Sample.env "https://example.com/page.html" = Ok None
  /\ Server._process_base64_image Sample.env "data:image/png;base64" = Ok None
  /\ exists payload,
       Server.analyze_image Sample.env (JStr "https://example.com/page.html")
         (JDict [])
       = Ok payload
       /\ error_envelope payload.
Proof.
  destruct (normalization_failures_become_error_envelopes Sample.env)
    as (_ & _ & _ & Hurl & Hprefix & _ & _ & Hnone & _).
  assert (Hpage : Server._process_image_url Sample.env
                    "https://example.com/page.html" = Ok None).
  { apply (Hurl "https://example.com/page.html"
                  {| raise_for_status := Ok tt;
                     content_type_header := Some "text/html";
                     content := Sample.hi_bytes |}); [reflexivity |].
    right; left.
    repeat constructor; intros Hc; apply str_in_contains in Hc;
      discriminate Hc. }
  split; [exact Hpage |].
  split; [apply (Hprefix "data:image/png;base64" IndexError); reflexivity |].
  destruct (Hnone (JStr "https://example.com/page.html") (JDict []) Hpage)
    as (payload & Hp & Henv & _).
  exists payload; split; assumption.
Defined.

(** C8.  For a string [current_alt] (absent counts as empty) the payload of
    [analyze_image_context] has a [current_alt_evaluation] block whose
    [length] is the character count of [current_alt], whose [quality_score]
    is 0.5 when [current_alt] is not empty and 0.0 otherwise, and whose
    [recommendations] start with "Consider more descriptive language" when
    it is not empty and with "Add descriptive alt text" otherwise. *)
Theorem current_alt_evaluation_block (E : Env) (arguments : dict)
    (current_alt : string) :
  string_argument "current_alt" arguments = Some current_alt ->
  exists payload block others,
    Server.handle_call_tool E "analyze_image_context" (JDict arguments)
    = Ok (Server.text_result E payload)
    /\ field "current_alt_evaluation" payload = Some block
    /\ field "length" block = Some (JInt (Z.of_nat (String.length current_alt)))
    /\ field "quality_score" block
       = Some (JFloat (if current_alt =? "" then 0 # 1 else 5 # 10))
    /\ field "recommendations" block
       = Some (JList
                 (JStr (if current_alt =? ""
                        then "Add descriptive alt text"
                        else "Consider more descriptive language") :: others)).
Proof.
  intros H.
  destruct (analyze_image_context_payload arguments current_alt H)
    as (analysis & Hpayload & Hblock).
  exists (JDict analysis); eexists; eexists; split.
  - unfold Server.handle_call_tool.
    change ("analyze_image_context" =? "generate_alt_text") with false.
    change ("analyze_image_context" =? "analyze_image_context") with true.
    cbv iota; rewrite Hpayload; reflexivity.
  - split; [exact Hblock |].
    repeat split.
Qed.

Lemma current_alt_evaluation_block_witness :
  exists payload block others,
    Server.handle_call_tool Sample.env "analyze_image_context"
      (JDict [ ("image_data", JStr "aGk="); ("current_alt", JStr "logo") ])
    = Ok (Server.text_result Sample.env payload)
    /\ field "current_alt_evaluation" payload = Some block
    /\ field "length" block = Some (JInt 4)
    /\ field "quality_score" block = Some (JFloat (5 # 10))
    /\ field "recommendations" block
       = Some (JList (JStr "Consider more descriptive language" :: others)).
Proof.
  exact (current_alt_evaluation_block Sample.env
           [ ("image_data", JStr "aGk="); ("current_alt", JStr "logo") ]
           "logo" eq_refl).
Defined.

(* ================================================================= *)
(** ** Further properties of the minimal server *)

Lemma main_step_events (E : Env) (line : string) :
  (nonblank line = false /\ SimpleServer.main_step E line = [])
  \/ (nonblank line = true
      /\ exists ev, SimpleServer.main_step E line = [ ev ]).
Proof.
  unfold nonblank, SimpleServer.main_step.
  destruct (strip line =? ""); [left; split; reflexivity | right].
  split; [reflexivity |].
  destruct (bind (json_loads E line) _) as [out | []]; eexists; reflexivity.
Qed.

Lemma printed_app (a b : list SimpleServer.event) :
  SimpleServer.printed (a ++ b)
  = SimpleServer.printed a ++ SimpleServer.printed b.
Proof. apply flat_map_app. Qed.

Lemma printed_length (evs : list SimpleServer.event) :
  (List.length (SimpleServer.printed evs) <= List.length evs)%nat.
Proof.
  unfold SimpleServer.printed.
  induction evs as [| [out | record] evs IH]; cbn in *; lia.
Qed.

(** The read loop leaves exactly one event (a printed response or a log
    record) per non-blank line and none per blank line, so it never prints
    more lines than it read non-blank ones. *)
Theorem main_one_event_per_nonblank_line (E : Env) (stdin : list string) :
  List.length (SimpleServer.main E stdin)
  = List.length (filter nonblank stdin)
  /\ (List.length (SimpleServer.printed (SimpleServer.main E stdin))
      <= List.length (filter nonblank stdin))%nat.
Proof.
  assert (Hlen : List.length (SimpleServer.main E stdin)
                 = List.length (filter nonblank stdin)).
  { induction stdin as [| line stdin IH]; [reflexivity |].
    change (SimpleServer.main E (line :: stdin))
      with (SimpleServer.main_step E line ++ SimpleServer.main E stdin).
    rewrite length_app, IH; cbn [filter].
    destruct (main_step_events E line) as [(-> & ->) | (-> & ev & ->)];
      reflexivity. }
  split; [exact Hlen |].
  rewrite <- Hlen; apply printed_length.
Qed.

(** When every line is non-blank and parses to a well-typed object, the
    printed output is one response per line, in the order of the lines, each
    the serialisation of what [handle_message] returns for that line and
    echoing that line's id. *)
Theorem main_answers_in_request_order (E : Env) (stdin : list string) :
  Forall (fun line =>
            nonblank line = true
            /\ exists message,
                 json_loads E line = Ok (JDict message)
                 /\ well_typed_call message = true) stdin ->
  Forall2 (fun line out =>
             exists message response,
               json_loads E line = Ok (JDict message)
               /\ SimpleServer.handle_message E (JDict message) = Ok response
               /\ field "id" response = Some (request_id message)
               /\ out = json_dumps E response)
    stdin (SimpleServer.printed (SimpleServer.main E stdin)).
Proof.
  induction 1 as [| line stdin (Hnb & message & Hl & Hw) _ IH];
    [constructor |].
  change (SimpleServer.main E (line :: stdin))
    with (SimpleServer.main_step E line ++ SimpleServer.main E stdin).
  rewrite printed_app.
  destruct (handle_message_returns E message Hw) as (response & Hr & Hid & _).
  assert (Hstep : SimpleServer.main_step E line
                  = [ SimpleServer.Printed (json_dumps E response) ]).
  { unfold SimpleServer.main_step.
    unfold nonblank in Hnb; apply negb_true_iff in Hnb.
    rewrite Hnb, Hl; cbn [bind]; rewrite Hr; reflexivity. }
  rewrite Hstep; cbn [SimpleServer.printed flat_map app].
  constructor; [| exact IH].
  exists message, response; repeat split; assumption.
Qed.

Lemma main_answers_in_request_order_witness :
  Forall2 (fun line out =>
             exists message response,
               json_loads Sample.env line = Ok (JDict message)
               /\ SimpleServer.handle_message Sample.env (JDict message)
                  = Ok response
               /\ field "id" response = Some (request_id message)
               /\ out = json_dumps Sample.env response)
    [ Sample.ping_line; Sample.ping_line ]
    (SimpleServer.printed
       (SimpleServer.main Sample.env [ Sample.ping_line; Sample.ping_line ])).
Proof.
  apply main_answers_in_request_order.
  repeat constructor; exists Sample.ping_notification; split; reflexivity.
Defined.

(** [handle_message] raises nothing but [AttributeError]; so a line that
    parses is either answered on standard output or logged as
    "Error handling message" with that exception, never anything else. *)
Theorem handle_message_raises_only_attribute_error (E : Env) :
  (forall message e,
     SimpleServer.handle_message E message = Raise e -> e = AttributeError)
  /\ forall line message,
       nonblank line = true ->
       json_loads E line = Ok message ->
       (exists response,
          SimpleServer.handle_message E message = Ok response
          /\ SimpleServer.main_step E line
             = [ SimpleServer.Printed (json_dumps E response) ])
       \/ SimpleServer.main_step E line
          = [ SimpleServer.Logged
                ("Error handling message: " ++ str_exn E AttributeError) ].
Proof.
  assert (Honly : forall message e,
             SimpleServer.handle_message E message = Raise e ->
             e = AttributeError).
  { intros message e H.
    destruct message as [| | | | | | d];
      try (cbn in H; injection H as <-; reflexivity).
    destruct (well_typed_call d) eqn:Hw.
    - destruct (handle_message_returns E d Hw) as (response & Hr & _).
      congruence.
    - rewrite (handle_message_raises E d Hw) in H.
      injection H as <-; reflexivity. }
  split; [exact Honly |].
  intros line message Hnb Hl.
  unfold SimpleServer.main_step.
  unfold nonblank in Hnb; apply negb_true_iff in Hnb.
  rewrite Hnb, Hl; cbn [bind].
  destruct (SimpleServer.handle_message E message) as [response | e] eqn:Hm.
  - left; exists response; split; reflexivity.
  - right; rewrite (Honly message e Hm); reflexivity.
Qed.

Lemma handle_message_raises_only_attribute_error_witness :
  SimpleServer.main_step Sample.env Sample.null_title_line
  = [ SimpleServer.Logged
        ("Error handling message: " ++ str_exn Sample.env AttributeError) ].
Proof.
  destruct (proj2 (handle_message_raises_only_attribute_error Sample.env)
              Sample.null_title_line (JDict Sample.null_title_notification)
              eq_refl eq_refl) as [(response & Hr & _) | H].
  - vm_compute in Hr; discriminate Hr.
  - exact H.
Defined.

Lemma tools_call_head (E : Env) (message params : dict) (msg_id : json) :
  mapping_argument "params" message = Some params ->
  SimpleServer.tools_call E (JDict message) msg_id
  = let tool_name :=
      match dict_get "name" params with Some v => v | None => JNone end in
    let arguments :=
      match dict_get "arguments" params with Some v => v | None => JDict [] end in
    if py_eq_str tool_name "generate_alt_text" then
      bind (SimpleServer.generate_alt_text arguments)
        (fun payload =>
           Ok (Some (SimpleServer.tool_call_response E msg_id payload)))
    else Ok None.
Proof.
  intros Hp; unfold SimpleServer.tools_call.
  rewrite (mapping_argument_get _ _ _ Hp); reflexivity.
Qed.

Lemma handle_message_tools_call (E : Env) (message : dict) :
  dict_get "method" message = Some (JStr "tools/call") ->
  SimpleServer.handle_message E (JDict message)
  = bind (SimpleServer.tools_call E (JDict message) (request_id message))
      (fun returned =>
         match returned with
         | Some response => Ok response
         | None =>
             Ok (SimpleServer.method_not_found E (request_id message)
                   (JStr "tools/call"))
         end).
Proof.
  intros Hm; rewrite handle_message_object, Hm; reflexivity.
Qed.

(** A [tools/call] whose [params] is a mapping and whose tool name is
    missing or is not "generate_alt_text" is answered like an unknown
    method: error -32601 with the message "Method not found: tools/call",
    which names the method and not the tool.  The arguments are not looked
    at, so they may be anything. *)
Theorem unknown_tool_is_method_not_found (E : Env) (message params : dict) :
  dict_get "method" message = Some (JStr "tools/call") ->
  mapping_argument "params" message = Some params ->
  dict_get "name" params <> Some (JStr "generate_alt_text") ->
  exists response,
    SimpleServer.handle_message E (JDict message) = Ok response
    /\ field "id" response = Some (request_id message)
    /\ error_response response (-32601) "Method not found: tools/call".
Proof.
  intros Hm Hp Hn.
  rewrite (handle_message_tools_call E message Hm), (tools_call_head E _ _ _ Hp).
  cbv zeta.
  assert (Hne : py_eq_str
                  (match dict_get "name" params with
                   | Some v => v
                   | None => JNone
                   end) "generate_alt_text" = false).
  { destruct (dict_get "name" params) as [[| | | | name | |] |];
      try reflexivity.
    cbn; apply String.eqb_neq; intros ->; now apply Hn. }
  rewrite Hne; cbn [bind].
  eexists; split; [reflexivity |].
  split; [reflexivity |].
  eexists; repeat split.
Qed.

Lemma unknown_tool_is_method_not_found_witness :
  exists response,
    SimpleServer.handle_message Sample.env (JDict Sample.unknown_tool_message)
    = Ok response
    /\ field "id" response = Some (JInt 9)
    /\ error_response response (-32601) "Method not found: tools/call".
Proof.
  apply (unknown_tool_is_method_not_found Sample.env Sample.unknown_tool_message
           [ ("name", JStr "describe_image"); ("arguments", JInt 5) ]
           eq_refl eq_refl).
  discriminate.
Defined.

(** The names that [tools/list] announces are exactly the names that
    [tools/call] accepts: a well-typed call gets a [result] response if and
    only if its tool name is listed in [self.tools]. *)
Theorem listed_tools_are_the_callable_ones (E : Env) (message params : dict)
    (name : json) :
  dict_get "method" message = Some (JStr "tools/call") ->
  mapping_argument "params" message = Some params ->
  dict_get "name" params = Some name ->
  well_typed_call message = true ->
  In name (listed_names SimpleServer.tools)
  <-> exists response,
        SimpleServer.handle_message E (JDict message) = Ok response
        /\ has_field "result" response = true.
Proof.
  intros Hm Hp Hn Hw.
  rewrite (handle_message_tools_call E message Hm), (tools_call_head E _ _ _ Hp).
  cbv zeta; rewrite Hn.
  change (listed_names SimpleServer.tools) with [ JStr "generate_alt_text" ].
  split.
  - intros [<- | []]; cbn [py_eq_str].
    change ("generate_alt_text" =? "generate_alt_text") with true; cbv iota.
    revert Hw; unfold well_typed_call; rewrite Hm, Hp, Hn.
    change ("tools/call" =? "tools/call") with true.
    change ("generate_alt_text" =? "generate_alt_text") with true; cbv iota.
    destruct (mapping_argument "arguments" params) as [arguments |] eqn:Ha;
      [| discriminate].
    destruct (mapping_argument "context" arguments) as [context |] eqn:Hc;
      [| discriminate].
    destruct (string_argument "page_title" context) as [title |] eqn:Ht;
      [| discriminate].
    intros _.
    assert (Hargs : (match dict_get "arguments" params with
                     | Some v => v | None => JDict [] end) = JDict arguments).
    { pose proof (mapping_argument_get _ _ _ Ha) as H; cbn in H; congruence. }
    rewrite Hargs, (generate_alt_text_payload _ _ _ Hc Ht); cbn [bind].
    eexists; split; reflexivity.
  - intros (response & Hr & Hres).
    destruct (py_eq_str name "generate_alt_text") eqn:Heq.
    + destruct name; cbn in Heq; try discriminate.
      apply String.eqb_eq in Heq; subst; left; reflexivity.
    + cbn [bind] in Hr; injection Hr as <-; discriminate Hres.
Qed.

Lemma listed_tools_are_the_callable_ones_witness :
  In (JStr "generate_alt_text") (listed_names SimpleServer.tools)
  <-> exists response,
        SimpleServer.handle_message Sample.env (JDict Sample.test_call_message)
        = Ok response
        /\ has_field "result" response = true.
Proof.
  exact (listed_tools_are_the_callable_ones Sample.env Sample.test_call_message
           [ ("name", JStr "generate_alt_text");
             ("arguments", JDict Sample.test_call_arguments) ]
           (JStr "generate_alt_text") eq_refl eq_refl eq_refl eq_refl).
Defined.

(** The minimal handler looks at nothing but the [context] entry of its
    arguments: two argument mappings with the same [context] entry have the
    same outcome (the same payload, or the same exception), whatever
    [image_data] and the other keys are; and a payload echoes the context
    it was given under [context_used]. *)
Theorem generate_alt_text_depends_on_context_only (a1 a2 : dict) :
  dict_get "context" a1 = dict_get "context" a2 ->
  SimpleServer.generate_alt_text (JDict a1)
  = SimpleServer.generate_alt_text (JDict a2)
  /\ forall payload,
       SimpleServer.generate_alt_text (JDict a1) = Ok payload ->
       field "context_used" payload
       = Some (match dict_get "context" a2 with
               | Some context => context
               | None => JDict []
               end).
Proof.
  intros H; unfold SimpleServer.generate_alt_text; cbn [py_get bind].
  rewrite H; split; [reflexivity |].
  intros payload.
  destruct (py_get _ "page_title" _) as [page_title |]; cbn [bind];
    [| discriminate].
  destruct (py_get _ "page_topic" _) as [page_topic |]; cbn [bind];
    [| discriminate].
  destruct (py_lower page_title); cbn [bind]; [| discriminate].
  intros Hp; injection Hp as <-; reflexivity.
Qed.

Lemma generate_alt_text_depends_on_context_only_witness :
  SimpleServer.generate_alt_text (JDict Sample.test_call_arguments)
  = SimpleServer.generate_alt_text
      (JDict [ ("context",
                 JDict [ ("page_title", JStr "Smartphone Product Page");
                         ("page_topic", JStr "ecommerce") ]);
               ("image_data", JInt 0);
               ("extra", JBool true) ]).
Proof.
  exact (proj1 (generate_alt_text_depends_on_context_only
                  Sample.test_call_arguments
                  [ ("context",
                      JDict [ ("page_title", JStr "Smartphone Product Page");
                              ("page_topic", JStr "ecommerce") ]);
                    ("image_data", JInt 0);
                    ("extra", JBool true) ] eq_refl)).
Defined.

(* ================================================================= *)
(** ** Further properties of the rich server: image normalisation *)

(** The URL helper accepts exactly the responses that pass the status
    check, declare a media type containing one of the supported format
    names, and are at most 5 MiB long; what it returns then is the base64
    text of the content. *)
Theorem process_image_url_accepts_exactly (E : Env) (url out : string) :
  Server._process_image_url E url = Ok (Some out)
  <-> exists response,
        http_get E url = Ok response
        /\ raise_for_status response = Ok tt
        /\ Exists (fun fmt => contains fmt (Server.declared_media_type response))
             [ "jpeg"; "jpg"; "png"; "gif"; "webp" ]
        /\ (Z.of_nat (List.length (content response)) <= 5242880)%Z
        /\ out = b64encode E (content response).
Proof.
  unfold Server._process_image_url; split.
  - destruct (http_get E url) as [response |]; cbn [bind try_except];
      [| discriminate].
    destruct (raise_for_status response) as [[] |] eqn:Hs;
      cbn [bind try_except]; [| discriminate].
    destruct (existsb _ Server.supported_formats) eqn:Hex; cbn [negb];
      [| discriminate].
    destruct (Z.ltb_spec Server.size_limit
                (Z.of_nat (List.length (content response)))) as [Hl | Hl];
      [discriminate |].
    intros H; injection H as <-.
    exists response; repeat split; try assumption.
    apply existsb_exists in Hex; destruct Hex as (fmt & Hin & Hfmt).
    apply Exists_exists; exists fmt; split; [exact Hin |].
    apply str_in_contains, Hfmt.
  - intros (response & -> & Hs & Hex & Hl & ->); cbn [bind].
    rewrite Hs; cbn [bind].
    apply Exists_exists in Hex; destruct Hex as (fmt & Hin & Hfmt).
    assert (Hb : existsb
                   (fun fmt => str_in fmt (Server.declared_media_type response))
                   Server.supported_formats = true).
    { apply existsb_exists; exists fmt; split; [exact Hin |].
      apply str_in_contains, Hfmt. }
    rewrite Hb; cbn [negb].
    destruct (Z.ltb_spec Server.size_limit
                (Z.of_nat (List.length (content response)))) as [Hgt | _];
      [| reflexivity].
    rewrite size_limit_value in Hgt; lia.
Qed.

Lemma process_image_url_accepts_exactly_witness :
  Server._process_image_url Sample.env "https://example.com/test.jpg"
  = Ok (Some "aGk=").
Proof.
  apply (proj2 (process_image_url_accepts_exactly Sample.env
                  "https://example.com/test.jpg" "aGk=")).
  exists {| raise_for_status := Ok tt;
            content_type_header := Some "image/jpeg";
            content := Sample.hi_bytes |}.
  split; [reflexivity |].
  split; [reflexivity |].
  split; [left; exists "image/", ""%string; reflexivity |].
  split; [cbn; lia | reflexivity].
Defined.

(** The inline-data helper accepts exactly the inputs whose text, after the
    removal of a data-URL prefix, decodes to at most 5 MiB; what it returns
    then is that text itself, not a re-encoding of the decoded bytes. *)
Theorem process_base64_image_accepts_exactly (E : Env) (data out : string) :
  Server._process_base64_image E data = Ok (Some out)
  <-> exists image_bytes,
        Server.without_data_url_prefix data = Ok out
        /\ b64decode E out = Ok image_bytes
        /\ (Z.of_nat (List.length image_bytes) <= 5242880)%Z.
Proof.
  unfold Server._process_base64_image; split.
  - destruct (Server.without_data_url_prefix data) as [encoded |];
      cbn [bind try_except]; [| discriminate].
    destruct (b64decode E encoded) as [image_bytes |] eqn:Hd;
      cbn [bind try_except]; [| discriminate].
    destruct (Z.ltb_spec Server.size_limit (Z.of_nat (List.length image_bytes)))
      as [Hl | Hl]; [discriminate |].
    intros H; injection H as <-.
    exists image_bytes; repeat split; assumption.
  - intros (image_bytes & -> & Hd & Hl); cbn [bind].
    rewrite Hd; cbn [bind].
    destruct (Z.ltb_spec Server.size_limit (Z.of_nat (List.length image_bytes)))
      as [Hgt | _]; [| reflexivity].
    rewrite size_limit_value in Hgt; lia.
Qed.

Lemma process_base64_image_accepts_exactly_witness :
  Server._process_base64_image Sample.env "data:image/png;base64,aGk="
  = Ok (Some "aGk=").
Proof.
  apply (proj2 (process_base64_image_accepts_exactly Sample.env
                  "data:image/png;base64,aGk=" "aGk=")).
  exists Sample.hi_bytes.
  split; [reflexivity |].
  split; [reflexivity | cbn; lia].
Defined.

Lemma split_head (s : string) :
  exists rest, split "," s = before_comma s :: rest.
Proof.
  induction s as [| c s (rest & IH)]; [exists []; reflexivity |].
  cbn [split before_comma].
  destruct (Ascii.eqb c ","); [eexists; reflexivity |].
  rewrite IH; eexists; reflexivity.
Qed.

Lemma split_comma_free (s : string) :
  comma_free s = true -> split "," s = [ s ].
Proof.
  induction s as [| c s IH]; [reflexivity |].
  cbn [comma_free split]; intros H; apply andb_true_iff in H as [Hc Hs].
  apply negb_true_iff in Hc; rewrite Hc, (IH Hs); reflexivity.
Qed.

Lemma split_at_first_comma (header rest : string) :
  comma_free header = true ->
  split "," (header ++ "," ++ rest) = header :: split "," rest.
Proof.
  induction header as [| c header IH]; [reflexivity |].
  cbn [comma_free append split]; intros H; apply andb_true_iff in H as [Hc Hh].
  apply negb_true_iff in Hc; rewrite Hc.
  change (header ++ String "," rest)%string with (header ++ "," ++ rest)%string.
  rewrite (IH Hh); reflexivity.
Qed.

Lemma before_comma_free (s : string) :
  comma_free s = true -> before_comma s = s.
Proof.
  induction s as [| c s IH]; [reflexivity |].
  cbn [comma_free before_comma]; intros H; apply andb_true_iff in H as [Hc Hs].
  apply negb_true_iff in Hc; rewrite Hc, (IH Hs); reflexivity.
Qed.

(** How a data URL is taken apart.  Input that does not start with "data:"
    is left as it is.  For "data:<header>,<payload>" with a comma-free
    header the result is the payload up to its next comma: what follows a
    second comma is dropped.  A "data:" input without any comma faults with
    [IndexError], and the helper then returns [None]. *)
Theorem data_url_prefix_removal (E : Env) :
  (forall data,
     startswith data "data:" = false ->
     Server.without_data_url_prefix data = Ok data)
  /\ (forall header payload,
        comma_free header = true ->
        Server.without_data_url_prefix ("data:" ++ header ++ "," ++ payload)
        = Ok (before_comma payload)
        /\ (comma_free payload = true -> before_comma payload = payload))
  /\ (forall data,
        startswith data "data:" = true ->
        comma_free data = true ->
        Server.without_data_url_prefix data = Raise IndexError
        /\ Server._process_base64_image E data = Ok None).
Proof.
  split; [| split].
  - intros data H; unfold Server.without_data_url_prefix; rewrite H; reflexivity.
  - intros header payload Hh; split; [| apply before_comma_free].
    unfold Server.without_data_url_prefix, startswith.
    rewrite prefix_app.
    change ("data:" ++ header ++ "," ++ payload)%string
      with (("data:" ++ header) ++ "," ++ payload)%string.
    rewrite split_at_first_comma by exact Hh.
    destruct (split_head payload) as (rest & ->); reflexivity.
  - intros data Hp Hc.
    assert (H : Server.without_data_url_prefix data = Raise IndexError).
    { unfold Server.without_data_url_prefix; rewrite Hp.
      rewrite (split_comma_free _ Hc); reflexivity. }
    split; [exact H |].
    unfold Server._process_base64_image; rewrite H; reflexivity.
Qed.

Lemma data_url_prefix_removal_witness :
  Server.without_data_url_prefix "data:image/png;base64,aGk=,ignored"
  = Ok "aGk="
  /\ Server._process_base64_image Sample.env "data:image/png;base64" = Ok None.
Proof.
  destruct (data_url_prefix_removal Sample.env) as (_ & Hurl & Hnone).
  split.
  - exact (proj1 (Hurl "image/png;base64" "aGk=,ignored" eq_refl)).
  - exact (proj2 (Hnone "data:image/png;base64" eq_refl eq_refl)).
Defined.

(* ================================================================= *)
(** ** Further properties of the rich server: context prompt and analysis *)

Lemma prompt_part_of_string (E : Env) (context : dict)
    (key label value : string) :
  string_argument key context = Some value ->
  Server.prompt_part E (JDict context) key label "" (fun v => Ok v)
  = Ok (if value =? "" then [] else [ (label ++ value)%string ]).
Proof.
  unfold string_argument, Server.prompt_part, py_get, py_getitem.
  destruct (dict_get key context) as [[| | | | s | |] |];
    intros H; inversion H; subst; cbn [bind truthy format]; [| reflexivity].
  rewrite append_empty_r; destruct (value =? ""); reflexivity.
Qed.

Lemma prompt_part_slice_of_string (E : Env) (context : dict)
    (key label suffix value : string) :
  string_argument key context = Some value ->
  Server.prompt_part E (JDict context) key label suffix (py_slice_to 200)
  = Ok (if value =? "" then []
        else [ (label ++ String.substring 0 200 value ++ suffix)%string ]).
Proof.
  unfold string_argument, Server.prompt_part, py_get, py_getitem.
  destruct (dict_get key context) as [[| | | | s | |] |];
    intros H; inversion H; subst; cbn [bind truthy]; [| reflexivity].
  destruct (value =? ""); reflexivity.
Qed.

Lemma prompt_part_total (E : Env) (context : dict) (key label suffix : string) :
  exists lines,
    Server.prompt_part E (JDict context) key label suffix (fun v => Ok v)
    = Ok lines.
Proof.
  unfold Server.prompt_part, py_get, py_getitem; cbn [bind].
  destruct (dict_get key context) as [v |]; cbn [truthy];
    [| eexists; reflexivity].
  destruct (truthy v); eexists; reflexivity.
Qed.

Lemma prompt_part_slice_cases (E : Env) (context : dict)
    (key label suffix : string) :
  (unsliceable (dict_get key context) = true
   /\ Server.prompt_part E (JDict context) key label suffix (py_slice_to 200)
      = Raise TypeError)
  \/ (unsliceable (dict_get key context) = false
      /\ exists lines,
           Server.prompt_part E (JDict context) key label suffix
             (py_slice_to 200) = Ok lines).
Proof.
  unfold Server.prompt_part, py_get, py_getitem; cbn [bind].
  destruct (dict_get key context) as [v |]; cbn [unsliceable truthy bind].
  2:{ right; split; [reflexivity | eexists; reflexivity]. }
  destruct v as [| b | n | q | s | l | d]; cbn [truthy unsliceable].
  - right; split; [reflexivity | eexists; reflexivity].
  - destruct b; [left | right]; split; try reflexivity; eexists; reflexivity.
  - destruct (negb (n =? 0)%Z); [left | right]; split; try reflexivity;
      eexists; reflexivity.
  - destruct (negb (Qnum q =? 0)%Z); [left | right]; split; try reflexivity;
      eexists; reflexivity.
  - right; split; [reflexivity |].
    destruct (negb (s =? "")); eexists; reflexivity.
  - right; split; [reflexivity |].
    destruct l; eexists; reflexivity.
  - destruct d; [right | left]; split; try reflexivity; eexists; reflexivity.
Qed.

(** For a context whose four prompt entries are strings (or missing), the
    prompt is built without fault from the non-empty ones, in the fixed
    order title, surrounding text, file name, topic, whatever the order of
    the keys; the surrounding text is cut to 200 characters and always
    followed by "..."; and the prompt is the stand-in text exactly when all
    four are empty or missing. *)
Theorem context_prompt_of_strings (E : Env) (context : dict)
    (title surrounding filename topic : string) :
  string_argument "page_title" context = Some title ->
  string_argument "surrounding_text" context = Some surrounding ->
  string_argument "image_filename" context = Some filename ->
  string_argument "page_topic" context = Some topic ->
  exists prompt,
    Server._build_context_prompt E (JDict context) = Ok prompt
    /\ prompt
       = prompt_of_lines
           (expected_prompt_lines title surrounding filename topic)
    /\ (prompt = "No additional context available."
        <-> title = "" /\ surrounding = "" /\ filename = "" /\ topic = "").
Proof.
  intros Ht Hs Hf Hp.
  exists (prompt_of_lines (expected_prompt_lines title surrounding filename topic)).
  split; [| split; [reflexivity |]].
  - unfold Server._build_context_prompt.
    rewrite (prompt_part_of_string E _ _ _ _ Ht); cbn [bind].
    rewrite (prompt_part_slice_of_string E _ _ _ _ _ Hs); cbn [bind].
    rewrite (prompt_part_of_string E _ _ _ _ Hf); cbn [bind].
    rewrite (prompt_part_of_string E _ _ _ _ Hp); cbn [bind].
    reflexivity.
  - unfold expected_prompt_lines, prompt_of_lines.
    destruct (String.eqb_spec title ""), (String.eqb_spec surrounding ""),
             (String.eqb_spec filename ""), (String.eqb_spec topic "");
      subst; cbn;
      (split; [try discriminate; auto | intros (? & ? & ? & ?); congruence]).
Qed.

Lemma context_prompt_of_strings_witness :
  exists prompt,
    Server._build_context_prompt Sample.env
      (JDict [ ("page_topic", JStr "testing"); ("page_title", JStr "Test Page") ])
    = Ok prompt
    /\ prompt
       = prompt_of_lines (expected_prompt_lines "Test Page" "" "" "testing")
    /\ (prompt = "No additional context available."
        <-> "Test Page" = "" /\ "" = "" /\ "" = "" /\ "testing" = "").
Proof.
  exact (context_prompt_of_strings Sample.env
           [ ("page_topic", JStr "testing"); ("page_title", JStr "Test Page") ]
           "Test Page" "" "" "testing" eq_refl eq_refl eq_refl eq_refl).
Defined.

Lemma build_context_prompt_cases (E : Env) (context : dict) :
  (unsliceable (dict_get "surrounding_text" context) = true
   /\ Server._build_context_prompt E (JDict context) = Raise TypeError)
  \/ (unsliceable (dict_get "surrounding_text" context) = false
      /\ exists prompt,
           Server._build_context_prompt E (JDict context) = Ok prompt).
Proof.
  unfold Server._build_context_prompt.
  destruct (prompt_part_total E context "page_title" "Page title: " "")
    as (p1 & ->); cbn [bind].
  destruct (prompt_part_slice_cases E context "surrounding_text"
              "Surrounding text: " "...") as [(Hu & ->) | (Hu & p2 & ->)];
    cbn [bind]; [left; split; [exact Hu | reflexivity] |].
  destruct (prompt_part_total E context "image_filename" "Image filename: " "")
    as (p3 & ->); cbn [bind].
  destruct (prompt_part_total E context "page_topic" "Page topic: " "")
    as (p4 & ->); cbn [bind].
  right; split; [exact Hu | eexists; reflexivity].
Qed.

(** The context prompt faults in two ways only: with [AttributeError] when
    the context is not a mapping, and on a mapping exactly when
    [surrounding_text] is truthy and neither a string nor a list.  Either
    fault turns an image that passed normalisation into the "Analysis
    failed" error envelope. *)
Theorem context_faults_fail_the_analysis (E : Env) :
  (forall context,
     (forall d, context <> JDict d) ->
     Server._build_context_prompt E context = Raise AttributeError)
  /\ (forall context : dict,
        (unsliceable (dict_get "surrounding_text" context) = true ->
         exists e, Server._build_context_prompt E (JDict context) = Raise e)
        /\ (unsliceable (dict_get "surrounding_text" context) = false ->
            exists prompt,
              Server._build_context_prompt E (JDict context) = Ok prompt))
  /\ forall image_data context s e,
       Server.normalize_image E image_data = Ok (Some s) ->
       s <> "" ->
       Server._build_context_prompt E context = Raise e ->
       Server.analyze_image E image_data context
       = Ok (Server._create_error_response
               ("Analysis failed: " ++ str_exn E e)).
Proof.
  split; [| split].
  - intros context H; destruct context; try reflexivity.
    now destruct (H d).
  - intros context.
    destruct (build_context_prompt_cases E context) as [(Hu & H) | (Hu & H)];
      split; intros Hu'; try congruence.
    exists TypeError; exact H.
  - intros image_data context s e Hn Hs Hb.
    unfold Server.analyze_image; rewrite Hn; cbn [bind Server.falsy_input].
    apply String.eqb_neq in Hs; rewrite Hs.
    unfold Server._generate_alt_text_options; rewrite Hb; reflexivity.
Qed.

Lemma context_faults_fail_the_analysis_witness :
  Server.analyze_image Sample.env (JStr "aGk=")
    (JDict [ ("surrounding_text", JInt 7) ])
  = Ok (Server._create_error_response "Analysis failed: TypeError").
Proof.
  destruct (context_faults_fail_the_analysis Sample.env) as (_ & Hctx & Hfail).
  destruct (proj1 (Hctx [ ("surrounding_text", JInt 7) ]) eq_refl) as (e & He).
  rewrite (Hfail (JStr "aGk=") (JDict [ ("surrounding_text", JInt 7) ]) "aGk="
             e eq_refl ltac:(discriminate) He).
  vm_compute in He; injection He as <-; reflexivity.
Defined.

(** [analyze_image] reports success exactly when the normalisation yields a
    non-empty text and the context prompt is built; the payload is then the
    fixed suggestions and analysis with the context echoed under
    [context_used].  In every other case it returns an error envelope. *)
Theorem analyze_image_succeeds_exactly (E : Env) (image_data context : json) :
  (analysable E image_data context ->
   Server.analyze_image E image_data context
   = Ok (rich_success_payload context))
  /\ (~ analysable E image_data context ->
      exists error_message,
        Server.analyze_image E image_data context
        = Ok (Server._create_error_response error_message)).
Proof.
  unfold analysable, Server.analyze_image; split.
  - intros ((s & -> & Hs) & (prompt & Hp)); cbn [bind Server.falsy_input].
    apply String.eqb_neq in Hs; rewrite Hs.
    unfold Server._generate_alt_text_options; rewrite Hp; reflexivity.
  - intros Hno.
    destruct (Server.normalize_image E image_data) as [[s |] | e];
      cbn [bind Server.falsy_input try_except]; try (eexists; reflexivity).
    destruct (String.eqb_spec s "") as [-> | Hs]; [eexists; reflexivity |].
    unfold Server._generate_alt_text_options.
    destruct (Server._build_context_prompt E context) as [prompt | e] eqn:Hp;
      cbn [bind try_except]; [| eexists; reflexivity].
    exfalso; apply Hno; split; [exists s; split; [reflexivity | exact Hs] |].
    exists prompt; reflexivity.
Qed.

Lemma analyze_image_succeeds_exactly_witness :
  Server.analyze_image Sample.env (JStr "https://example.com/test.jpg")
    (JDict [ ("page_title", JStr "Test Page"); ("page_topic", JStr "testing") ])
  = Ok (rich_success_payload
          (JDict [ ("page_title", JStr "Test Page");
                   ("page_topic", JStr "testing") ])).
Proof.
  apply (proj1 (analyze_image_succeeds_exactly Sample.env
                  (JStr "https://example.com/test.jpg")
                  (JDict [ ("page_title", JStr "Test Page");
                           ("page_topic", JStr "testing") ]))).
  split; [exists "aGk="; split; [reflexivity | discriminate] |].
  eexists; reflexivity.
Defined.

(** The [except] branch of [_generate_alt_text_options] is dead: the
    function returns its literal list or passes on a fault of the prompt,
    and no payload of [analyze_image] ever carries the "Image description
    unavailable" fallback of confidence 0.5. *)
Theorem options_fallback_is_never_returned (E : Env)
    (image_data context : json) :
  (Server._generate_alt_text_options E image_data context
   = Ok Server.rich_suggestions
   \/ exists e,
        Server._build_context_prompt E context = Raise e
        /\ Server._generate_alt_text_options E image_data context = Raise e)
  /\ exists payload,
       Server.analyze_image E image_data context = Ok payload
       /\ field "alt_suggestions" payload
          <> Some (JList Server.options_fallback).
Proof.
  split.
  - unfold Server._generate_alt_text_options.
    destruct (Server._build_context_prompt E context) as [prompt | e];
      [left; reflexivity | right; exists e; split; reflexivity].
  - destruct (analyze_image_total E image_data context) as (payload & Hp).
    exists payload; split; [exact Hp |].
    destruct (analyze_image_outcomes E _ _ _ Hp)
      as [(_ & Hs & _) | (_ & _ & fallback & Hs & _ & Hc)];
      rewrite Hs; intros H; injection H as H; [discriminate H |].
    subst fallback; cbn in Hc; discriminate Hc.
Qed.

(** In the rich server a [generate_alt_text] call without [image_data], or
    with the empty string, always gets the error envelope "Invalid image
    format or size", whatever the decoder does with the empty text and
    whatever the context is. *)
Theorem rich_server_rejects_missing_image_data (E : Env) (arguments : dict) :
  dict_get "image_data" arguments = None
  \/ dict_get "image_data" arguments = Some (JStr "") ->
  Server.generate_alt_text E (JDict arguments)
  = Ok (Server._create_error_response "Invalid image format or size").
Proof.
  intros H; unfold Server.generate_alt_text; cbn [py_get bind].
  assert (Hi : match dict_get "image_data" arguments with
               | Some v => v
               | None => JStr ""
               end = JStr "") by (destruct H as [-> | ->]; reflexivity).
  rewrite Hi; unfold Server.analyze_image.
  change (Server.normalize_image E (JStr ""))
    with (try_except
            (bind (b64decode E "")
               (fun image_bytes =>
                  if (Server.size_limit <? Z.of_nat (List.length image_bytes))%Z
                  then Ok None
                  else Ok (Some "")))
            (fun _ => Ok None)).
  destruct (b64decode E "") as [image_bytes |]; cbn [bind try_except];
    [| reflexivity].
  destruct (Server.size_limit <? _)%Z; reflexivity.
Qed.

Lemma rich_server_rejects_missing_image_data_witness :
  Server.generate_alt_text Sample.env
    (JDict [ ("context", JDict [ ("page_topic", JStr "ecommerce") ]) ])
  = Ok (Server._create_error_response "Invalid image format or size").
Proof.
  apply rich_server_rejects_missing_image_data; left; reflexivity.
Defined.

(* ================================================================= *)
(** ** Further properties of the rich server: the tool handlers *)

Lemma call_validate (E : Env) (arguments : json) :
  Server.handle_call_tool E "validate_alt_text_quality" arguments
  = bind (Server.validate_alt_text_quality arguments)
      (fun payload => Ok (Server.text_result E payload)).
Proof. reflexivity. Qed.

Lemma call_analyze_context (E : Env) (arguments : json) :
  Server.handle_call_tool E "analyze_image_context" arguments
  = bind (Server.analyze_image_context arguments)
      (fun payload => Ok (Server.text_result E payload)).
Proof. reflexivity. Qed.

Lemma call_generate (E : Env) (arguments : json) :
  Server.handle_call_tool E "generate_alt_text" arguments
  = bind (Server.generate_alt_text E arguments)
      (fun payload => Ok (Server.text_result E payload)).
Proof. reflexivity. Qed.

(** [validate_alt_text_quality] takes the length of [alt_text] before it
    tests it, so an [alt_text] that is null, a boolean or a number makes the
    handler raise [TypeError]; any other value (a string, and also a list or
    a mapping, counted by elements) is scored, and the payload echoes the
    value and carries its length. *)
Theorem validate_faults_on_unsized_alt_text (E : Env) (arguments : dict)
    (alt_text : json) :
  alt_text = match dict_get "alt_text" arguments with
             | Some v => v
             | None => JStr ""
             end ->
  (unsized alt_text = true ->
   Server.handle_call_tool E "validate_alt_text_quality" (JDict arguments)
   = Raise TypeError)
  /\ (unsized alt_text = false ->
      exists payload n,
        Server.handle_call_tool E "validate_alt_text_quality" (JDict arguments)
        = Ok (Server.text_result E payload)
        /\ py_len alt_text = Ok n
        /\ field "length" payload = Some (JInt n)
        /\ field "alt_text" payload = Some alt_text).
Proof.
  intros Ha; rewrite call_validate.
  unfold Server.validate_alt_text_quality; cbn [py_get bind]; rewrite <- Ha.
  split; intros Hu.
  - destruct alt_text; try discriminate Hu; reflexivity.
  - destruct alt_text; try discriminate Hu; cbn [py_len bind];
      destruct (Server.quality_checks _ _); eexists; eexists;
      repeat split.
Qed.

Lemma validate_faults_on_unsized_alt_text_witness :
  Server.handle_call_tool Sample.env "validate_alt_text_quality"
    (JDict [ ("alt_text", JNone); ("image_data", JStr "aGk=") ])
  = Raise TypeError.
Proof.
  apply (proj1 (validate_faults_on_unsized_alt_text Sample.env
                  [ ("alt_text", JNone); ("image_data", JStr "aGk=") ]
                  JNone eq_refl)).
  reflexivity.
Defined.

(** [analyze_image_context] tests [current_alt] before it takes its length:
    a falsy value of any type (null, false, zero, the empty string, list or
    mapping) is evaluated like a missing text, with length 0, score 0.0 and
    the advice to add alt text; a truthy boolean or number makes the handler
    raise [TypeError]. *)
Theorem analyze_context_guards_current_alt (E : Env) (arguments : dict)
    (current_alt : json) :
  current_alt = match dict_get "current_alt" arguments with
                | Some v => v
                | None => JStr ""
                end ->
  (truthy current_alt = false ->
   exists payload block others,
     Server.handle_call_tool E "analyze_image_context" (JDict arguments)
     = Ok (Server.text_result E payload)
     /\ field "current_alt_evaluation" payload = Some block
     /\ field "text" block = Some current_alt
     /\ field "length" block = Some (JInt 0)
     /\ field "quality_score" block = Some (JFloat (0 # 1))
     /\ field "recommendations" block
        = Some (JList (JStr "Add descriptive alt text" :: others)))
  /\ (truthy current_alt = true -> unsized current_alt = true ->
      Server.handle_call_tool E "analyze_image_context" (JDict arguments)
      = Raise TypeError).
Proof.
  intros Ha; rewrite call_analyze_context.
  unfold Server.analyze_image_context; cbn [py_get bind]; rewrite <- Ha.
  split.
  - intros Hf; rewrite Hf; cbn [bind].
    eexists; eexists; eexists; repeat split.
  - intros Ht Hu; rewrite Ht.
    destruct current_alt; try discriminate Hu; reflexivity.
Qed.

Lemma analyze_context_guards_current_alt_witness :
  Server.handle_call_tool Sample.env "analyze_image_context"
    (JDict [ ("image_data", JStr "aGk="); ("current_alt", JInt 3) ])
  = Raise TypeError.
Proof.
  apply (proj2 (analyze_context_guards_current_alt Sample.env
                  [ ("image_data", JStr "aGk="); ("current_alt", JInt 3) ]
                  (JInt 3) eq_refl)); reflexivity.
Defined.

(** The payload of [analyze_image_context] is the static analysis with the
    evaluation added under its own key: every other key reads as in
    [_analyze_accessibility_context], and the outcome depends on the
    [current_alt] entry alone, not on [image_data] or [context]. *)
Theorem analyze_context_extends_static_analysis (a1 a2 : dict) :
  dict_get "current_alt" a1 = dict_get "current_alt" a2 ->
  Server.analyze_image_context (JDict a1)
  = Server.analyze_image_context (JDict a2)
  /\ forall payload,
       Server.analyze_image_context (JDict a1) = Ok payload ->
       has_field "current_alt_evaluation" payload = true
       /\ forall k,
            k <> "current_alt_evaluation" ->
            field k payload
            = dict_get k (Server._analyze_accessibility_context tt (JDict [])).
Proof.
  intros H; unfold Server.analyze_image_context; cbn [py_get bind].
  rewrite H; split; [reflexivity |].
  intros payload.
  destruct (if truthy _ then _ else _) as [n |]; cbn [bind]; [| discriminate].
  intros Hp; injection Hp as <-.
  split; [reflexivity |].
  intros k Hk.
  assert (Hk' : ("current_alt_evaluation" =? k) = false)
    by (apply String.eqb_neq; congruence).
  unfold field; cbn [dict_get Server._analyze_accessibility_context].
  rewrite Hk'; reflexivity.
Qed.

Lemma analyze_context_extends_static_analysis_witness :
  Server.analyze_image_context
    (JDict [ ("image_data", JStr "aGk="); ("current_alt", JStr "logo") ])
  = Server.analyze_image_context
      (JDict [ ("current_alt", JStr "logo"); ("context", JInt 1) ]).
Proof.
  exact (proj1 (analyze_context_extends_static_analysis
                  [ ("image_data", JStr "aGk="); ("current_alt", JStr "logo") ]
                  [ ("current_alt", JStr "logo"); ("context", JInt 1) ]
                  eq_refl)).
Defined.

Lemma score_value (alt_text : string) :
  (if negb (alt_text =? "")
   then py_min 1 (true_div (Z.of_nat (String.length alt_text)) 50)
   else 0 # 1)
  == Qmin 1 (Z.of_nat (String.length alt_text) # 50).
Proof.
  destruct alt_text as [| c rest]; cbn [String.eqb negb]; [reflexivity |].
  rewrite py_min_Qmin, true_div_fraction; reflexivity.
Qed.

Lemma fraction_le (n m : Z) : (n <= m)%Z -> n # 50 <= m # 50.
Proof. intros H; unfold Qle; cbn; lia. Qed.

Lemma min_fraction_full (n : Z) : Qmin 1 (n # 50) == 1 <-> (50 <= n)%Z.
Proof.
  split; intros H.
  - destruct (Z.le_gt_cases 50 n) as [Hn | Hn]; [exact Hn |].
    rewrite Q.min_r in H by (unfold Qle; cbn; lia).
    unfold Qeq in H; cbn in H; lia.
  - apply Q.min_l; unfold Qle; cbn; lia.
Qed.

Lemma validate_score (arguments : dict) (alt_text : string) :
  string_argument "alt_text" arguments = Some alt_text ->
  exists payload q,
    Server.validate_alt_text_quality (JDict arguments) = Ok payload
    /\ score_of payload = Some q
    /\ q == Qmin 1 (Z.of_nat (String.length alt_text) # 50)
    /\ field "issues" payload
       = Some (JList (map JStr (fst (expected_checks alt_text)))).
Proof.
  intros H; eexists; eexists.
  split; [exact (validate_payload _ _ H) |].
  cbv zeta; rewrite quality_checks_expected.
  split; [reflexivity |].
  split; [apply score_value | reflexivity].
Qed.

(** The quality score lies between 0 and 1 and never decreases with the
    length of the text: of two string texts the longer scores at least as
    much as the shorter. *)
Theorem quality_score_is_monotone_and_bounded (a1 a2 : dict) (s1 s2 : string) :
  string_argument "alt_text" a1 = Some s1 ->
  string_argument "alt_text" a2 = Some s2 ->
  (String.length s1 <= String.length s2)%nat ->
  exists p1 p2 q1 q2,
    Server.validate_alt_text_quality (JDict a1) = Ok p1
    /\ Server.validate_alt_text_quality (JDict a2) = Ok p2
    /\ score_of p1 = Some q1
    /\ score_of p2 = Some q2
    /\ 0 <= q1 /\ q1 <= q2 /\ q2 <= 1.
Proof.
  intros H1 H2 Hle.
  destruct (validate_score a1 s1 H1) as (p1 & q1 & Hp1 & Hs1 & Hq1 & _).
  destruct (validate_score a2 s2 H2) as (p2 & q2 & Hp2 & Hs2 & Hq2 & _).
  exists p1, p2, q1, q2; repeat split; try assumption.
  - rewrite Hq1; apply Q.min_glb; [discriminate |].
    unfold Qle; cbn; lia.
  - rewrite Hq1, Hq2; apply Q.min_le_compat_l, fraction_le; lia.
  - rewrite Hq2; apply Q.le_min_l.
Qed.

Lemma quality_score_is_monotone_and_bounded_witness :
  exists p1 p2 q1 q2,
    Server.validate_alt_text_quality (JDict [ ("alt_text", JStr "Hi") ]) = Ok p1
    /\ Server.validate_alt_text_quality
         (JDict [ ("alt_text", JStr "A red bicycle") ]) = Ok p2
    /\ score_of p1 = Some q1
    /\ score_of p2 = Some q2
    /\ 0 <= q1 /\ q1 <= q2 /\ q2 <= 1.
Proof.
  apply (quality_score_is_monotone_and_bounded
           [ ("alt_text", JStr "Hi") ] [ ("alt_text", JStr "A red bicycle") ]
           "Hi" "A red bicycle" eq_refl eq_refl).
  cbn; lia.
Defined.

(** Score and issues are computed apart from each other.  A string text
    gets the full score 1 together with an empty issue list exactly when it
    has between 50 and 125 characters; a text of more than 125 characters
    still scores 1 while it is flagged as too long. *)
Theorem full_score_without_issues_window (arguments : dict)
    (alt_text : string) :
  string_argument "alt_text" arguments = Some alt_text ->
  exists payload q,
    Server.validate_alt_text_quality (JDict arguments) = Ok payload
    /\ score_of payload = Some q
    /\ ((q == 1 /\ field "issues" payload = Some (JList []))
        <-> (50 <= String.length alt_text <= 125)%nat)
    /\ ((125 < String.length alt_text)%nat ->
        q == 1
        /\ field "issues" payload
           = Some (JList [ JStr "Alt text may be too long" ])).
Proof.
  intros H.
  destruct (validate_score arguments alt_text H)
    as (payload & q & Hp & Hs & Hq & Hi).
  exists payload, q; split; [exact Hp |]; split; [exact Hs |].
  pose proof (min_fraction_full (Z.of_nat (String.length alt_text))) as Hfull.
  rewrite <- Hq in Hfull.
  pose proof (expected_checks_cases alt_text) as (H0 & H1 & H2 & H3).
  rewrite Hi; split.
  - split.
    + intros (Hq1 & Hnone); apply Hfull in Hq1.
      split; [lia |].
      destruct (Nat.le_gt_cases (String.length alt_text) 125) as [Hle | Hgt];
        [exact Hle |].
      rewrite (H2 Hgt) in Hnone; discriminate Hnone.
    + intros (Hlo & Hhi); split; [apply Hfull; lia |].
      rewrite H3 by lia; reflexivity.
  - intros Hgt; split; [apply Hfull; lia |].
    rewrite (H2 Hgt); reflexivity.
Qed.

Lemma full_score_without_issues_window_witness :
  exists payload q,
    Server.validate_alt_text_quality
      (JDict [ ("alt_text",
                 JStr "A red bicycle leaning against a white brick wall at dusk") ])
    = Ok payload
    /\ score_of payload = Some q
    /\ q == 1
    /\ field "issues" payload = Some (JList []).
Proof.
  destruct (full_score_without_issues_window
              [ ("alt_text",
                  JStr "A red bicycle leaning against a white brick wall at dusk") ]
              "A red bicycle leaning against a white brick wall at dusk" eq_refl)
    as (payload & q & Hp & Hs & Hwin & _).
  exists payload, q; split; [exact Hp |]; split; [exact Hs |].
  apply Hwin; cbn; lia.
Defined.

Lemma rich_generate_faults (E : Env) (arguments : json) (e : exn) :
  Server.generate_alt_text E arguments = Raise e -> e = AttributeError.
Proof.
  unfold Server.generate_alt_text.
  destruct arguments; cbn [py_get bind];
    try (intros H; injection H as <-; reflexivity).
  destruct (analyze_image_total E
              (match dict_get "image_data" d with
               | Some v => v | None => JStr "" end)
              (match dict_get "context" d with
               | Some v => v | None => JDict [] end)) as (payload & ->).
  discriminate.
Qed.

Lemma rich_analyze_context_faults (arguments : json) (e : exn) :
  Server.analyze_image_context arguments = Raise e ->
  e = AttributeError \/ e = TypeError.
Proof.
  unfold Server.analyze_image_context.
  destruct arguments; cbn [py_get bind];
    try (intros H; injection H as <-; left; reflexivity).
  destruct (truthy _); cbn [bind]; [| discriminate].
  destruct (py_len _) eqn:Hl; cbn [bind]; [discriminate |].
  intros H; injection H as <-.
  destruct (match dict_get "current_alt" d with
            | Some v => v | None => JStr "" end);
    cbn in Hl; try discriminate Hl; injection Hl as <-; right; reflexivity.
Qed.

Lemma rich_validate_faults (arguments : json) (e : exn) :
  Server.validate_alt_text_quality arguments = Raise e ->
  e = AttributeError \/ e = TypeError.
Proof.
  unfold Server.validate_alt_text_quality.
  destruct arguments; cbn [py_get bind];
    try (intros H; injection H as <-; left; reflexivity).
  destruct (py_len _) eqn:Hl; cbn [bind].
  - destruct (Server.quality_checks _ _); discriminate.
  - intros H; injection H as <-.
    destruct (match dict_get "alt_text" d with
              | Some v => v | None => JStr "" end);
      cbn in Hl; try discriminate Hl; injection Hl as <-; right; reflexivity.
Qed.

(** The names that [handle_list_tools] announces are exactly the names
    that [handle_call_tool] dispatches: a call faults with
    [ValueError "Unknown tool: <name>"] if and only if the name is not
    listed, whatever the arguments are. *)
Theorem unknown_tool_iff_not_listed (E : Env) (name : string)
    (arguments : json) :
  Server.handle_call_tool E name arguments
  = Raise (ValueError ("Unknown tool: " ++ name))
  <-> ~ In name (map Server.tool_name Server.handle_list_tools).
Proof.
  unfold Server.handle_call_tool; cbn [map Server.handle_list_tools
                                         Server.tool_name In].
  destruct (String.eqb_spec name "generate_alt_text") as [-> | H1].
  { split; [| intros H; exfalso; apply H; left; reflexivity].
    destruct (Server.generate_alt_text E arguments) eqn:Hg; cbn [bind];
      [discriminate |].
    intros H; injection H as ->.
    apply rich_generate_faults in Hg; discriminate Hg. }
  destruct (String.eqb_spec name "analyze_image_context") as [-> | H2].
  { split; [| intros H; exfalso; apply H; right; left; reflexivity].
    destruct (Server.analyze_image_context arguments) eqn:Hg; cbn [bind];
      [discriminate |].
    intros H; injection H as ->.
    apply rich_analyze_context_faults in Hg; destruct Hg; discriminate. }
  destruct (String.eqb_spec name "validate_alt_text_quality") as [-> | H3].
  { split; [| intros H; exfalso; apply H; right; right; left; reflexivity].
    destruct (Server.validate_alt_text_quality arguments) eqn:Hg; cbn [bind];
      [discriminate |].
    intros H; injection H as ->.
    apply rich_validate_faults in Hg; destruct Hg; discriminate. }
  split; [| reflexivity].
  intros _ [H | [H | [H | []]]]; congruence.
Qed.

(** For [generate_alt_text] the rich server never lets a fault out: on any
    argument mapping, whatever the types of [image_data] and [context], the
    handler returns one text content whose payload is the success payload
    or an error envelope. *)
Theorem rich_generate_alt_text_never_faults (E : Env) (arguments : dict) :
  exists payload,
    Server.handle_call_tool E "generate_alt_text" (JDict arguments)
    = Ok [ {| Server.tc_type := "text";
              Server.tc_text := json_dumps_indent E payload |} ]
    /\ ((field "success" payload = Some (JBool true)
         /\ field "alt_suggestions" payload
            = Some (JList Server.rich_suggestions))
        \/ error_envelope payload).
Proof.
  rewrite call_generate; unfold Server.generate_alt_text; cbn [py_get bind].
  destruct (analyze_image_total E
              (match dict_get "image_data" arguments with
               | Some v => v | None => JStr "" end)
              (match dict_get "context" arguments with
               | Some v => v | None => JDict [] end)) as (payload & Hp).
  rewrite Hp; cbn [bind].
  exists payload; split; [reflexivity |].
  destruct (analyze_image_outcomes E _ _ _ Hp) as [(Hs & Ha & _) | He];
    [left; split; assumption | right; exact He].
Qed.
